(** * MOOSE-Z: the model registry, the prediction driver and the entry point

    A shallow embedding of [moosez/resources.py], [moosez/predict.py] and
    [moosez/moosez.py].

    - Python values are a tagged union [pyvalue]; a [dict] literal is an
      association list in insertion order, looked up by key.
    - Code with effects (printing, logging, [os.environ], [subprocess.run],
      calls into the operating system and into the modules of the package
      that are not part of this development) runs in a state-and-exception
      monad [M] over an explicit interpreter state.
    - What lies outside Python (file system, network, terminal of helper
      modules, the segmentation engine) is an abstract [world] that only the
      operations of a [Host] can change. *)

From Stdlib Require Import String Ascii List ZArith QArith Bool Lia.
From Stdlib Require Import DecimalString.
Import ListNotations.
Local Open Scope string_scope.
Local Open Scope Z_scope.
Set Warnings "-register-all".

(* ===================================================================== *)
(** ** Python values                                                      *)
(* ===================================================================== *)

Module Py.

(** Keys of the dictionaries of this program are [str] or [int]. *)
Inductive pykey : Type :=
| KStr (s : string)
| KInt (n : Z).

(** Float literals are kept as the exact decimal written in the source
    ([1.5], [0.4000000059604645]); the program performs no arithmetic on
    them. *)
Inductive pyvalue : Type :=
| PNone
| PBool (b : bool)
| PInt (n : Z)
| PFloat (q : Q)
| PStr (s : string)
| PList (l : list pyvalue)
| PDict (d : list (pykey * pyvalue)).

Definition dict := list (pykey * pyvalue).

(** Exceptions the program raises or lets through. *)
Inductive exn : Type :=
| Exception (msg : string)
| SystemExit (code : Z)
| CalledProcessError (returncode : Z) (cmd : string)
| OSError (msg : string)
| TypeError (msg : string).

Inductive result (A : Type) : Type :=
| Ok (a : A)
| Raise (e : exn).
Arguments Ok {A} a.
Arguments Raise {A} e.

Definition key_eqb (a b : pykey) : bool :=
  match a, b with
  | KStr s, KStr t => String.eqb s t
  | KInt n, KInt m => Z.eqb n m
  | _, _ => false
  end.

(** [d.get(k)] / [k in d]: the first binding of [k]. *)
Fixpoint dict_get (d : dict) (k : pykey) : option pyvalue :=
  match d with
  | [] => None
  | (k', v) :: d' => if key_eqb k' k then Some v else dict_get d' k
  end.

Definition dict_mem (d : dict) (k : pykey) : bool :=
  match dict_get d k with Some _ => true | None => false end.

(** [d[k] = v]: replaces the value of an existing key in place, appends a
    new key at the end. *)
Fixpoint dict_set (d : dict) (k : pykey) (v : pyvalue) : dict :=
  match d with
  | [] => [(k, v)]
  | (k', v') :: d' =>
      if key_eqb k' k then (k', v) :: d' else (k', v') :: dict_set d' k v
  end.

(** [d.keys()]. *)
Definition dict_keys (d : dict) : list pykey := map fst d.

(** Field access on a value that may or may not be a dict. *)
Definition field (v : pyvalue) (name : string) : option pyvalue :=
  match v with
  | PDict d => dict_get d (KStr name)
  | _ => None
  end.

(** [v[k] = x]: item assignment, defined on dicts. *)
Definition setitem (v : pyvalue) (k : pykey) (x : pyvalue) : result pyvalue :=
  match v with
  | PDict d => Ok (PDict (dict_set d k x))
  | _ => Raise (TypeError "object does not support item assignment")
  end.

Definition is_None (v : pyvalue) : bool :=
  match v with PNone => true | _ => false end.

(** [str(n)] for an [int]. *)
Definition str_int (n : Z) : string := NilZero.string_of_int (Z.to_int n).

End Py.
Import Py.

(* ===================================================================== *)
(** ** The interpreter state and the effect monad                         *)
(* ===================================================================== *)

Module Runtime.

Inductive level : Type := INFO | ERROR.

(** What the modelled code itself does to the terminal, the log and the
    process table, in program order.  The terminal and the log file opened
    by [logging.basicConfig] are kept here, apart from the [world]. *)
Inductive event : Type :=
| Print (s : string)                        (* print(s) *)
| Log (l : level) (s : string)              (* logging.info(s), logging.error(s) *)
| SpinnerStart (text : string)              (* Halo(text=...).start() *)
| SpinnerSucceed (text : string)            (* spinner.succeed(text) *)
| StdoutToDevnull                           (* os.dup2(devnull.fileno(), 1) *)
| StdoutRestored                            (* os.dup2(old_stdout, 1) *)
| SubprocessRun (cmd : string) (returncode : Z)   (* subprocess.run(cmd, shell=True, ...) *)
| UsageError (option value : string).
    (* argparse's parser.error for an invalid choice: the usage line and
       "argument <option>: invalid choice: <value> (choose from ...)" on
       standard error, in argparse's own wording *)

(** The surroundings of the three modules: the operating system, the
    external engine reached through the shell, and the functions of the
    package modules [constants], [display], [download], [file_utilities] and
    [input_validation], which the three modules call but do not define.  Each
    receives exactly the arguments the caller passes and may read and change
    the [world]; each may raise. *)
Class Host : Type := {
  world : Type;
  (* os, os.path *)
  abspath : string -> string;
  path_join : string -> string -> string;
  listdir : string -> world -> result (list string);
  isdir : string -> world -> bool;
  (* the shell: a command line and an environment give an exit code *)
  shell : string -> list (string * string) -> world -> Z * world;
  (* moosez.constants *)
  NNUNET_RESULTS_FOLDER : string;
  (* moosez.display *)
  display_logo : world -> result unit * world;
  display_citation : world -> result unit * world;
  display_expectations : string -> world -> result unit * world;
  display_expected_modality : string -> world -> result pyvalue * world;
  (* moosez.download *)
  download_model : string -> string -> world -> result unit * world;
  (* moosez.file_utilities *)
  nnunet_folder_structure : world -> result string * world;
  moose_folder_structure :
    string -> string -> pyvalue -> world ->
    result (string * list string * list string) * world;
  organise_files_by_modality :
    list string -> pyvalue -> string -> world -> result unit * world;
  (* moosez.input_validation *)
  select_moose_compliant_subjects :
    list string -> pyvalue -> world -> result (list string) * world;
  make_nnunet_compatible : string -> world -> result unit * world
}.

(** What [resources.check_device] asks of [torch]: [torch.cuda.is_available()],
    [torch.cuda.device_count()], [torch.backends.mps.is_available()] and
    [torch.backends.mps.is_built()]. *)
Class Torch {H : Host} : Type := {
  cuda_is_available : world -> bool;
  cuda_device_count : world -> Z;
  mps_is_available : world -> bool;
  mps_is_built : world -> bool
}.

Section monad.
Context {H : Host}.

Record state : Type := mkState {
  st_world : world;                          (* everything outside Python *)
  st_environ : list (string * string);       (* os.environ *)
  st_MODELS : dict;                          (* resources.MODELS, a module-level dict *)
  st_trace : list event                      (* events so far, oldest first *)
}.

Definition M (A : Type) : Type := state -> result A * state.

Definition ret {A} (a : A) : M A := fun s => (Ok a, s).

Definition raise {A} (e : exn) : M A := fun s => (Raise e, s).

Definition bind {A B} (m : M A) (k : A -> M B) : M B :=
  fun s =>
    match m s with
    | (Ok a, s') => k a s'
    | (Raise e, s') => (Raise e, s')
    end.

Definition lift {A} (r : result A) : M A := fun s => (r, s).

Definition emit (e : event) : M unit :=
  fun s => (Ok tt, mkState (st_world s) (st_environ s) (st_MODELS s) (st_trace s ++ [e])).

Definition get_world : M world := fun s => (Ok (st_world s), s).

(** A call that reads and changes the world. *)
Definition call {A} (f : world -> result A * world) : M A :=
  fun s =>
    let (r, w) := f (st_world s) in
    (r, mkState w (st_environ s) (st_MODELS s) (st_trace s)).

(** A call that only reads the world. *)
Definition query {A} (f : world -> result A) : M A :=
  fun s => (f (st_world s), s).

Definition print (s : string) : M unit := emit (Print s).
Definition logging_info (s : string) : M unit := emit (Log INFO s).
Definition logging_error (s : string) : M unit := emit (Log ERROR s).

(** [os.environ[k] = v]. *)
Fixpoint env_set (env : list (string * string)) (k v : string) : list (string * string) :=
  match env with
  | [] => [(k, v)]
  | (k', v') :: env' =>
      if String.eqb k' k then (k', v) :: env' else (k', v') :: env_set env' k v
  end.

Definition setenv (k v : string) : M unit :=
  fun s => (Ok tt, mkState (st_world s) (env_set (st_environ s) k v) (st_MODELS s) (st_trace s)).

(** [subprocess.run(cmd, shell=True, env=os.environ, stdout=DEVNULL,
    stderr=DEVNULL)] without [check=True]: waits for the command and returns
    the completed process, here its return code; a non-zero code does not
    raise. *)
Definition subprocess_run (cmd : string) : M Z :=
  fun s =>
    let (rc, w) := shell cmd (st_environ s) (st_world s) in
    (Ok rc, mkState w (st_environ s) (st_MODELS s) (st_trace s ++ [SubprocessRun cmd rc])).

(** [for x in l: body(x)]. *)
Fixpoint for_each {A} (l : list A) (body : A -> M unit) : M unit :=
  match l with
  | [] => ret tt
  | x :: l' => bind (body x) (fun _ => for_each l' body)
  end.

End monad.

Declare Scope py_scope.
Delimit Scope py_scope with py.
Notation "x <- m ;; k" := (bind m (fun x => k))
  (at level 61, m at next level, right associativity) : py_scope.
Notation "m ;; k" := (bind m (fun _ => k))
  (at level 61, right associativity) : py_scope.

End Runtime.
Import Runtime.
Local Open Scope py_scope.

(* ===================================================================== *)
(** ** moosez/resources.py                                                *)
(* ===================================================================== *)

Module resources.

(** The registry of pre-trained models, as written in the source. *)
Definition MODELS : dict :=
[
  (KStr "clin_ct_lungs",
   PDict [
     (KStr "url", PStr "https://enhance-pet.s3.eu-central-1.amazonaws.com/moose/clin_ct_lungs_24062023.zip");
     (KStr "filename", PStr "Dataset333_HMS3dlungs.zip");
     (KStr "directory", PStr "Dataset333_HMS3dlungs");
     (KStr "trainer", PStr "nnUNetTrainer_2000epochs_NoMirroring");
     (KStr "voxel_spacing", PList [PFloat 1.5; PFloat 1.5; PFloat 1.5]);
     (KStr "multilabel_prefix", PStr "CT_Lungs_");
     (KStr "configuration", PStr "3d_fullres");
     (KStr "planner", PStr "nnUNetPlans");
     (KStr "organ_indices", PDict [
       (KInt 1, PStr "lung_upper_lobe_left");
       (KInt 2, PStr "lung_lower_lobe_left");
       (KInt 3, PStr "lung_upper_lobe_right");
       (KInt 4, PStr "lung_middle_lobe_right");
       (KInt 5, PStr "lung_lower_lobe_right")]);
     (KStr "limit_fov", PNone)]);
  (KStr "clin_ct_organs",
   PDict [
     (KStr "url", PStr "https://enhance-pet.s3.eu-central-1.amazonaws.com/moose/clin_ct_organs_05082024.zip");
     (KStr "filename", PStr "Dataset123_Organs.zip");
     (KStr "directory", PStr "Dataset123_Organs");
     (KStr "trainer", PStr "nnUNetTrainer_2000epochs_NoMirroring");
     (KStr "voxel_spacing", PList [PFloat 1.5; PFloat 1.5; PFloat 1.5]);
     (KStr "multilabel_prefix", PStr "CT_Organs_");
     (KStr "configuration", PStr "3d_fullres");
     (KStr "planner", PStr "nnUNetPlans");
     (KStr "organ_indices", PDict [
       (KInt 1, PStr "adrenal_gland_left");
       (KInt 2, PStr "adrenal_gland_right");
       (KInt 3, PStr "bladder");
       (KInt 4, PStr "brain");
       (KInt 5, PStr "gallbladder");
       (KInt 6, PStr "kidney_left");
       (KInt 7, PStr "kidney_right");
       (KInt 8, PStr "liver");
       (KInt 9, PStr "lung_lower_lobe_left");
       (KInt 10, PStr "lung_lower_lobe_right");
       (KInt 11, PStr "lung_middle_lobe_right");
       (KInt 12, PStr "lung_upper_lobe_left");
       (KInt 13, PStr "lung_upper_lobe_right");
       (KInt 14, PStr "pancreas");
       (KInt 15, PStr "spleen");
       (KInt 16, PStr "stomach");
       (KInt 17, PStr "thyroid_left");
       (KInt 18, PStr "thyroid_right");
       (KInt 19, PStr "trachea")]);
     (KStr "limit_fov", PNone)]);
  (KStr "preclin_mr_all",
   PDict [
     (KStr "url", PStr "https://enhance-pet.s3.eu-central-1.amazonaws.com/moose/preclin_mr_all_05122023.zip");
     (KStr "filename", PStr "Dataset234_minimoose.zip");
     (KStr "directory", PStr "Dataset234_minimoose");
     (KStr "trainer", PStr "nnUNetTrainer");
     (KStr "voxel_spacing", PList [PFloat 0.4000000059604645; PFloat 0.4000000059604645; PFloat 0.4000000059604645]);
     (KStr "multilabel_prefix", PStr "Preclin_MR_all_");
     (KStr "configuration", PStr "3d_fullres");
     (KStr "planner", PStr "nnUNetPlans");
     (KStr "organ_indices", PDict [
       (KInt 1, PStr "Brain");
       (KInt 2, PStr "Liver");
       (KInt 3, PStr "Intestines");
       (KInt 4, PStr "Pancreas");
       (KInt 5, PStr "Thyroid");
       (KInt 6, PStr "Spleen");
       (KInt 7, PStr "Bladder");
       (KInt 8, PStr "OuterKidney");
       (KInt 9, PStr "InnerKidney");
       (KInt 10, PStr "HeartInside");
       (KInt 11, PStr "HeartOutside");
       (KInt 12, PStr "WAT Subcutaneous");
       (KInt 13, PStr "WAT Visceral");
       (KInt 14, PStr "BAT");
       (KInt 15, PStr "Muscle TF");
       (KInt 16, PStr "Muscle TB");
       (KInt 17, PStr "Muscle BB");
       (KInt 18, PStr "Muscle BF");
       (KInt 19, PStr "Aorta");
       (KInt 20, PStr "Lung");
       (KInt 21, PStr "Stomach")]);
     (KStr "limit_fov", PNone)]);
  (KStr "clin_ct_body",
   PDict [
     (KStr "url", PStr "https://enhance-pet.s3.eu-central-1.amazonaws.com/moose/clin_ct_body_27112023.zip");
     (KStr "filename", PStr "Dataset001_body.zip");
     (KStr "directory", PStr "Dataset001_body");
     (KStr "trainer", PStr "nnUNetTrainer");
     (KStr "voxel_spacing", PList [PInt 5; PInt 5; PInt 5]);
     (KStr "multilabel_prefix", PStr "CT_Body_");
     (KStr "configuration", PStr "3d_fullres");
     (KStr "planner", PStr "nnUNetPlans");
     (KStr "organ_indices", PDict [
       (KInt 1, PStr "Legs");
       (KInt 2, PStr "Body");
       (KInt 3, PStr "Head");
       (KInt 4, PStr "Arms")]);
     (KStr "limit_fov", PNone)]);
  (KStr "clin_ct_ribs",
   PDict [
     (KStr "url", PStr "https://enhance-pet.s3.eu-central-1.amazonaws.com/moose/clin_ct_ribs_11082024.zip");
     (KStr "filename", PStr "Dataset444_Ribs.zip");
     (KStr "directory", PStr "Dataset444_Ribs");
     (KStr "trainer", PStr "nnUNetTrainer_2000epochs_NoMirroring");
     (KStr "voxel_spacing", PList [PFloat 1.5; PFloat 1.5; PFloat 1.5]);
     (KStr "multilabel_prefix", PStr "CT_Ribs_");
     (KStr "configuration", PStr "3d_fullres_big_patch");
     (KStr "planner", PStr "nnUNetPlans");
     (KStr "organ_indices", PDict [
       (KInt 1, PStr "rib_left_1");
       (KInt 2, PStr "rib_left_2");
       (KInt 3, PStr "rib_left_3");
       (KInt 4, PStr "rib_left_4");
       (KInt 5, PStr "rib_left_5");
       (KInt 6, PStr "rib_left_6");
       (KInt 7, PStr "rib_left_7");
       (KInt 8, PStr "rib_left_8");
       (KInt 9, PStr "rib_left_9");
       (KInt 10, PStr "rib_left_10");
       (KInt 11, PStr "rib_left_11");
       (KInt 12, PStr "rib_left_12");
       (KInt 13, PStr "rib_left_13");
       (KInt 14, PStr "rib_right_1");
       (KInt 15, PStr "rib_right_2");
       (KInt 16, PStr "rib_right_3");
       (KInt 17, PStr "rib_right_4");
       (KInt 18, PStr "rib_right_5");
       (KInt 19, PStr "rib_right_6");
       (KInt 20, PStr "rib_right_7");
       (KInt 21, PStr "rib_right_8");
       (KInt 22, PStr "rib_right_9");
       (KInt 23, PStr "rib_right_10");
       (KInt 24, PStr "rib_right_11");
       (KInt 25, PStr "rib_right_12");
       (KInt 26, PStr "rib_right_13");
       (KInt 27, PStr "sternum")]);
     (KStr "limit_fov", PNone)]);
  (KStr "clin_ct_muscles",
   PDict [
     (KStr "url", PStr "https://enhance-pet.s3.eu-central-1.amazonaws.com/moose/clin_ct_muscles_09082024.zip");
     (KStr "filename", PStr "Dataset555_Muscles.zip");
     (KStr "directory", PStr "Dataset555_Muscles");
     (KStr "trainer", PStr "nnUNetTrainer_2000epochs_NoMirroring");
     (KStr "voxel_spacing", PList [PFloat 1.5; PFloat 1.5; PFloat 1.5]);
     (KStr "multilabel_prefix", PStr "CT_Muscles_");
     (KStr "configuration", PStr "3d_fullres");
     (KStr "planner", PStr "nnUNetPlans");
     (KStr "organ_indices", PDict [
       (KInt 1, PStr "autochthon_left");
       (KInt 2, PStr "autochthon_right");
       (KInt 3, PStr "gluteus_maximus_left");
       (KInt 4, PStr "gluteus_maximus_right");
       (KInt 5, PStr "gluteus_medius_left");
       (KInt 6, PStr "gluteus_medius_right");
       (KInt 7, PStr "gluteus_minimus_left");
       (KInt 8, PStr "gluteus_minimus_right");
       (KInt 9, PStr "iliopsoas_left");
       (KInt 10, PStr "iliopsoas_right")]);
     (KStr "limit_fov", PNone)]);
  (KStr "clin_ct_peripheral_bones",
   PDict [
     (KStr "url", PStr "https://enhance-pet.s3.eu-central-1.amazonaws.com/moose/clin_ct_peripheral_bones_05082024.zip");
     (KStr "filename", PStr "Dataset666_Peripheral-Bones.zip");
     (KStr "directory", PStr "Dataset666_Peripheral-Bones");
     (KStr "trainer", PStr "nnUNetTrainer_2000epochs_NoMirroring");
     (KStr "voxel_spacing", PList [PFloat 1.5; PFloat 1.5; PFloat 1.5]);
     (KStr "multilabel_prefix", PStr "CT_Peripheral-Bones_");
     (KStr "configuration", PStr "3d_fullres");
     (KStr "planner", PStr "nnUNetPlans");
     (KStr "organ_indices", PDict [
       (KInt 1, PStr "carpal_left");
       (KInt 2, PStr "carpal_right");
       (KInt 3, PStr "clavicle_left");
       (KInt 4, PStr "clavicle_right");
       (KInt 5, PStr "femur_left");
       (KInt 6, PStr "femur_right");
       (KInt 7, PStr "fibula_left");
       (KInt 8, PStr "fibula_right");
       (KInt 9, PStr "fingers_left");
       (KInt 10, PStr "fingers_right");
       (KInt 11, PStr "humerus_left");
       (KInt 12, PStr "humerus_right");
       (KInt 13, PStr "metacarpal_left");
       (KInt 14, PStr "metacarpal_right");
       (KInt 15, PStr "metatarsal_left");
       (KInt 16, PStr "metatarsal_right");
       (KInt 17, PStr "patella_left");
       (KInt 18, PStr "patella_right");
       (KInt 19, PStr "radius_left");
       (KInt 20, PStr "radius_right");
       (KInt 21, PStr "scapula_left");
       (KInt 22, PStr "scapula_right");
       (KInt 23, PStr "skull");
       (KInt 24, PStr "tarsal_left");
       (KInt 25, PStr "tarsal_right");
       (KInt 26, PStr "tibia_left");
       (KInt 27, PStr "tibia_right");
       (KInt 28, PStr "toes_left");
       (KInt 29, PStr "toes_right");
       (KInt 30, PStr "ulna_left");
       (KInt 31, PStr "ulna_right")]);
     (KStr "limit_fov", PNone)]);
  (KStr "clin_ct_fat",
   PDict [
     (KStr "url", PStr "https://enhance-pet.s3.eu-central-1.amazonaws.com/moose/clin_ct_fat_31082023.zip");
     (KStr "filename", PStr "Dataset777_Fat.zip");
     (KStr "directory", PStr "Dataset777_Fat");
     (KStr "trainer", PStr "nnUNetTrainer_2000epochs_NoMirroring");
     (KStr "voxel_spacing", PList [PFloat 1.5; PFloat 1.5; PFloat 1.5]);
     (KStr "multilabel_prefix", PStr "CT_Fat_");
     (KStr "configuration", PStr "3d_fullres");
     (KStr "planner", PStr "nnUNetPlans");
     (KStr "organ_indices", PDict [
       (KInt 1, PStr "spinal_chord");
       (KInt 2, PStr "skeletal_muscle");
       (KInt 3, PStr "subcutaneous_fat");
       (KInt 4, PStr "visceral_fat");
       (KInt 5, PStr "thoracic_fat");
       (KInt 6, PStr "eyes");
       (KInt 7, PStr "testicles");
       (KInt 8, PStr "prostate")]);
     (KStr "limit_fov", PNone)]);
  (KStr "clin_ct_vertebrae",
   PDict [
     (KStr "url", PStr "https://enhance-pet.s3.eu-central-1.amazonaws.com/moose/clin_ct_vertebrae_11082024.zip");
     (KStr "filename", PStr "Dataset111_Vertebrae.zip");
     (KStr "directory", PStr "Dataset111_Vertebrae");
     (KStr "trainer", PStr "nnUNetTrainer_2000_epochs_DA5NoMirroring");
     (KStr "voxel_spacing", PList [PFloat 1.5; PFloat 1.5; PFloat 1.5]);
     (KStr "multilabel_prefix", PStr "CT_Vertebrae_");
     (KStr "configuration", PStr "3d_fullres");
     (KStr "planner", PStr "nnUNetPlans");
     (KStr "organ_indices", PDict [
       (KInt 1, PStr "vertebra_C1");
       (KInt 2, PStr "vertebra_C2");
       (KInt 3, PStr "vertebra_C3");
       (KInt 4, PStr "vertebra_C4");
       (KInt 5, PStr "vertebra_C5");
       (KInt 6, PStr "vertebra_C6");
       (KInt 7, PStr "vertebra_C7");
       (KInt 8, PStr "vertebra_T1");
       (KInt 9, PStr "vertebra_T2");
       (KInt 10, PStr "vertebra_T3");
       (KInt 11, PStr "vertebra_T4");
       (KInt 12, PStr "vertebra_T5");
       (KInt 13, PStr "vertebra_T6");
       (KInt 14, PStr "vertebra_T7");
       (KInt 15, PStr "vertebra_T8");
       (KInt 16, PStr "vertebra_T9");
       (KInt 17, PStr "vertebra_T10");
       (KInt 18, PStr "vertebra_T11");
       (KInt 19, PStr "vertebra_T12");
       (KInt 20, PStr "vertebra_L1");
       (KInt 21, PStr "vertebra_L2");
       (KInt 22, PStr "vertebra_L3");
       (KInt 23, PStr "vertebra_L4");
       (KInt 24, PStr "vertebra_L5");
       (KInt 25, PStr "vertebra_L6");
       (KInt 26, PStr "hip_left");
       (KInt 27, PStr "hip_right");
       (KInt 28, PStr "sacrum")]);
     (KStr "limit_fov", PNone)]);
  (KStr "clin_ct_cardiac",
   PDict [
     (KStr "url", PStr "https://enhance-pet.s3.eu-central-1.amazonaws.com/moose/clin_ct_cardiac_09082024.zip");
     (KStr "filename", PStr "Dataset888_Cardiac.zip");
     (KStr "directory", PStr "Dataset888_Cardiac");
     (KStr "trainer", PStr "nnUNetTrainer_2000epochs_NoMirroring");
     (KStr "voxel_spacing", PList [PFloat 1.5; PFloat 1.5; PFloat 1.5]);
     (KStr "multilabel_prefix", PStr "CT_Cardiac_");
     (KStr "configuration", PStr "3d_fullres");
     (KStr "planner", PStr "nnUNetPlans");
     (KStr "organ_indices", PDict [
       (KInt 1, PStr "heart_myocardium");
       (KInt 2, PStr "heart_atrium_left");
       (KInt 3, PStr "heart_atrium_right");
       (KInt 4, PStr "heart_ventricle_left");
       (KInt 5, PStr "heart_ventricle_right");
       (KInt 6, PStr "aorta");
       (KInt 7, PStr "iliac_artery_left");
       (KInt 8, PStr "iliac_artery_right");
       (KInt 9, PStr "iliac_vena_left");
       (KInt 10, PStr "iliac_vena_right");
       (KInt 11, PStr "inferior_vena_cava");
       (KInt 12, PStr "portal_splenic_vein");
       (KInt 13, PStr "pulmonary_artery")]);
     (KStr "limit_fov", PNone)]);
  (KStr "clin_ct_digestive",
   PDict [
     (KStr "url", PStr "https://enhance-pet.s3.eu-central-1.amazonaws.com/moose/clin_ct_digestive_10092023.zip");
     (KStr "filename", PStr "Dataset999_Digestive.zip");
     (KStr "directory", PStr "Dataset999_Digestive");
     (KStr "trainer", PStr "nnUNetTrainer_2000epochs_NoMirroring");
     (KStr "voxel_spacing", PList [PFloat 1.5; PFloat 1.5; PFloat 1.5]);
     (KStr "multilabel_prefix", PStr "CT_Digestive_");
     (KStr "configuration", PStr "3d_fullres");
     (KStr "planner", PStr "nnUNetPlans");
     (KStr "organ_indices", PDict [
       (KInt 1, PStr "esophagus");
       (KInt 2, PStr "trachea");
       (KInt 3, PStr "small_bowel");
       (KInt 4, PStr "duodenum");
       (KInt 5, PStr "colon");
       (KInt 6, PStr "urinary_bladder");
       (KInt 7, PStr "face")]);
     (KStr "limit_fov", PNone)]);
  (KStr "preclin_ct_legs",
   PDict [
     (KStr "url", PStr "https://enhance-pet.s3.eu-central-1.amazonaws.com/moose/preclin_ct_legs_05122023.zip");
     (KStr "filename", PStr "Dataset256_Preclin_leg_muscles.zip");
     (KStr "directory", PStr "Dataset256_Preclin_leg_muscles");
     (KStr "trainer", PStr "nnUNetTrainerNoMirroring");
     (KStr "voxel_spacing", PList [PFloat 0.18000000715255737; PFloat 0.18000000715255737; PFloat 0.18000000715255737]);
     (KStr "multilabel_prefix", PStr "Preclin_CT_legs_");
     (KStr "configuration", PStr "3d_fullres");
     (KStr "planner", PStr "nnUNetPlans");
     (KStr "organ_indices", PDict [
       (KInt 1, PStr "right_leg_muscle");
       (KInt 2, PStr "left_leg_muscle")]);
     (KStr "limit_fov", PNone)]);
  (KStr "clin_ct_all_bones_v1",
   PDict [
     (KStr "url", PStr "https://enhance-pet.s3.eu-central-1.amazonaws.com/moose/clin_ct_all_bones_25102023.zip");
     (KStr "filename", PStr "Dataset600_Original_bones.zip");
     (KStr "directory", PStr "Dataset600_Original_bones");
     (KStr "trainer", PStr "nnUNetTrainer_2000epochs");
     (KStr "voxel_spacing", PList [PFloat 1.5; PFloat 1.5; PFloat 1.5]);
     (KStr "multilabel_prefix", PStr "Clin_CT_all_bones_");
     (KStr "configuration", PStr "3d_fullres");
     (KStr "planner", PStr "nnUNetPlans");
     (KStr "organ_indices", PDict [
       (KInt 1, PStr "carpal");
       (KInt 2, PStr "clavicle");
       (KInt 3, PStr "femur");
       (KInt 4, PStr "fibula");
       (KInt 5, PStr "humerus");
       (KInt 6, PStr "metacarpal");
       (KInt 7, PStr "metatarsal");
       (KInt 8, PStr "patella");
       (KInt 9, PStr "pelvis");
       (KInt 10, PStr "fingers");
       (KInt 11, PStr "radius");
       (KInt 12, PStr "ribcage");
       (KInt 13, PStr "scapula");
       (KInt 14, PStr "skull");
       (KInt 15, PStr "spine");
       (KInt 16, PStr "sternum");
       (KInt 17, PStr "tarsal");
       (KInt 18, PStr "tibia");
       (KInt 19, PStr "toes");
       (KInt 20, PStr "ulna")]);
     (KStr "limit_fov", PNone)]);
  (KStr "clin_ct_PUMA",
   PDict [
     (KStr "url", PStr "https://enhance-pet.s3.eu-central-1.amazonaws.com/moose/clin_ct_PUMA_1k_23052024.zip");
     (KStr "filename", PStr "Dataset002_PUMA.zip");
     (KStr "directory", PStr "Dataset002_PUMA");
     (KStr "trainer", PStr "nnUNetTrainer_2000epochs_NoMirroring");
     (KStr "voxel_spacing", PList [PFloat 1.5; PFloat 1.5; PFloat 1.5]);
     (KStr "multilabel_prefix", PStr "Clin_CT_PUMA_");
     (KStr "configuration", PStr "3d_fullres");
     (KStr "planner", PStr "nnUNetPlans");
     (KStr "organ_indices", PDict [
       (KInt 0, PStr "background");
       (KInt 1, PStr "Spleen");
       (KInt 2, PStr "Kidneys");
       (KInt 3, PStr "Gallbladder");
       (KInt 4, PStr "Liver");
       (KInt 5, PStr "Stomach");
       (KInt 6, PStr "Pancreas");
       (KInt 7, PStr "Adrenal_glands");
       (KInt 8, PStr "Lungs");
       (KInt 9, PStr "Heart_myocardium");
       (KInt 10, PStr "Heart_atrium_left");
       (KInt 11, PStr "Heart_ventricle_left");
       (KInt 12, PStr "Heart_atrium_right");
       (KInt 13, PStr "Heart_ventricle_right");
       (KInt 14, PStr "Pulmonary_artery");
       (KInt 15, PStr "Aorta");
       (KInt 16, PStr "Inferior_vena_cava");
       (KInt 17, PStr "Esophagus");
       (KInt 18, PStr "Trachea");
       (KInt 19, PStr "Digestive");
       (KInt 20, PStr "Brain");
       (KInt 21, PStr "Skeleton");
       (KInt 22, PStr "Muscles");
       (KInt 23, PStr "Bladder")]);
     (KStr "limit_fov", PNone)]);
  (KStr "clin_pt_fdg_brain_v1",
   PDict [
     (KStr "url", PStr "https://enhance-pet.s3.eu-central-1.amazonaws.com/moose/clin_fdg_pt_brain_v1_17112023.zip");
     (KStr "filename", PStr "Dataset100_Brain_v1.zip");
     (KStr "directory", PStr "Dataset100_Brain_v1");
     (KStr "trainer", PStr "nnUNetTrainer_2000epochs_NoMirroring");
     (KStr "voxel_spacing", PList [PFloat 2.03125; PFloat 2.0862598419189453; PFloat 2.0862600803375244]);
     (KStr "multilabel_prefix", PStr "Clin_PT_FDG_brain_");
     (KStr "configuration", PStr "3d_fullres");
     (KStr "planner", PStr "nnUNetPlans");
     (KStr "organ_indices", PDict [
       (KInt 0, PStr "background");
       (KInt 1, PStr "R-Hippocampus");
       (KInt 2, PStr "L-Hippocampus");
       (KInt 3, PStr "R-Amygdala");
       (KInt 4, PStr "L-Amygdala");
       (KInt 5, PStr "R-Anterior-temporal-lobe-medial-part");
       (KInt 6, PStr "L-Anterior-temporal-lobe-medial-part");
       (KInt 7, PStr "R-Anterior-temporal-lobe-lateral-part");
       (KInt 8, PStr "L-Anterior-temporal-lobe-lateral-part");
       (KInt 9, PStr "R-Parahippocampal-and-ambient-gyri");
       (KInt 10, PStr "L-Parahippocampal-and-ambient-gyri");
       (KInt 11, PStr "R-Superior-temporal-gyrus-posterior-part");
       (KInt 12, PStr "L-Superior-temporal-gyrus-posterior-part");
       (KInt 13, PStr "R-Middle and inferior temporal gyrus");
       (KInt 14, PStr "L-Middle and inferior temporal gyrus");
       (KInt 15, PStr "R-Fusiform gyrus");
       (KInt 16, PStr "L-Fusiform gyrus");
       (KInt 17, PStr "R-Cerebellum");
       (KInt 18, PStr "L-Cerebellum");
       (KInt 19, PStr "Brainstem");
       (KInt 20, PStr "L-Insula");
       (KInt 21, PStr "R-Insula");
       (KInt 22, PStr "L-Lateral remainder of occipital lobe");
       (KInt 23, PStr "R-Lateral remainder of occipital lobe");
       (KInt 24, PStr "L-Cingulate gyrus gyrus cinguli anterior part");
       (KInt 25, PStr "R-Cingulate gyrus gyrus cinguli anterior part");
       (KInt 26, PStr "L-Cingulate gyrus gyrus cinguli posterior part");
       (KInt 27, PStr "R-Cingulate gyrus gyrus cinguli posterior part");
       (KInt 28, PStr "L-Middle frontal gyrus");
       (KInt 29, PStr "R-Middle frontal gyrus");
       (KInt 30, PStr "L-Posterior temporal lobe");
       (KInt 31, PStr "R-Posterior temporal lobe");
       (KInt 32, PStr "L-Inferiolateral remainder of parietal lobe");
       (KInt 33, PStr "R-Inferiolateral remainder of parietal lobe");
       (KInt 34, PStr "L-Caudate nucleus");
       (KInt 35, PStr "R-Caudate nucleus");
       (KInt 36, PStr "L-Nucleus accumbens");
       (KInt 37, PStr "R-Nucleus accumbens");
       (KInt 38, PStr "L-Putamen");
       (KInt 39, PStr "R-Putamen");
       (KInt 40, PStr "L-Thalamus");
       (KInt 41, PStr "R-Thalamus");
       (KInt 42, PStr "L-Pallidum");
       (KInt 43, PStr "R-Pallidum");
       (KInt 44, PStr "Corpus callosum");
       (KInt 45, PStr "R-Lateral ventricle excluding temporal horn");
       (KInt 46, PStr "L-Lateral ventricle excluding temporal horn");
       (KInt 47, PStr "R-Lateral ventricle, temporal horn");
       (KInt 48, PStr "L-Lateral ventricle, temporal horn");
       (KInt 49, PStr "Third ventricle");
       (KInt 50, PStr "L-Precentral gyrus");
       (KInt 51, PStr "R-Precentral gyrus");
       (KInt 52, PStr "L-Straight gyrus");
       (KInt 53, PStr "R-Straight gyrus");
       (KInt 54, PStr "L-Anterior orbital gyrus");
       (KInt 55, PStr "R-Anterior orbital gyrus");
       (KInt 56, PStr "L-Inferior frontal gyrus");
       (KInt 57, PStr "R-Inferior frontal gyrus");
       (KInt 58, PStr "L-Superior frontal gyrus");
       (KInt 59, PStr "R-Superior frontal gyrus");
       (KInt 60, PStr "L-Postcentral gyrus");
       (KInt 61, PStr "R-Postcentral gyrus");
       (KInt 62, PStr "L-Superior parietal gyrus");
       (KInt 63, PStr "R-Superior parietal gyrus");
       (KInt 64, PStr "L-Lingual gyrus");
       (KInt 65, PStr "R-Lingual gyrus");
       (KInt 66, PStr "L-Cuneus");
       (KInt 67, PStr "R-Cuneus");
       (KInt 68, PStr "L-Medial orbital gyrus");
       (KInt 69, PStr "R-Medial orbital gyrus");
       (KInt 70, PStr "L-Lateral orbital gyrus");
       (KInt 71, PStr "R-Lateral orbital gyrus");
       (KInt 72, PStr "L-Posterior orbital gyrus");
       (KInt 73, PStr "R-Posterior orbital gyrus");
       (KInt 74, PStr "L-Substantia nigra");
       (KInt 75, PStr "R-Substantia nigra");
       (KInt 76, PStr "L-Subgenual frontal cortex");
       (KInt 77, PStr "R-Subgenual frontal cortex");
       (KInt 78, PStr "L-Subcallosal area");
       (KInt 79, PStr "R-Subcallosal area");
       (KInt 80, PStr "L-Pre-subgenual frontal cortex");
       (KInt 81, PStr "R-Pre-subgenual frontal cortex");
       (KInt 82, PStr "L-Superior temporal gyrus anterior part");
       (KInt 83, PStr "R-Superior temporal gyrus anterior part")]);
     (KStr "limit_fov", PNone)]);
  (KStr "clin_ct_ALPACA",
   PDict [
     (KStr "url", PStr "https://enhance-pet.s3.eu-central-1.amazonaws.com/moose/clin_ct_ALPACA.zip");
     (KStr "filename", PStr "Dataset080_Alpaca.zip");
     (KStr "directory", PStr "Dataset080_Alpaca");
     (KStr "trainer", PStr "nnUNetTrainer_2000epochs_NoMirroring");
     (KStr "voxel_spacing", PList [PFloat 1.5; PFloat 1.5; PFloat 1.5]);
     (KStr "multilabel_prefix", PStr "Clin_CT_ALPACA_");
     (KStr "configuration", PStr "3d_fullres");
     (KStr "planner", PStr "nnUNetPlans");
     (KStr "organ_indices", PDict [
       (KInt 1, PStr "heart_ventricle_left");
       (KInt 2, PStr "heart_ventricle_right");
       (KInt 3, PStr "pulmonary_artery");
       (KInt 4, PStr "iliac_artery_left");
       (KInt 5, PStr "iliac_artery_right");
       (KInt 6, PStr "aorta")]);
     (KStr "limit_fov", PNone)]);
  (KStr "clin_ct_PUMA4",
   PDict [
     (KStr "url", PStr "https://enhance-pet.s3.eu-central-1.amazonaws.com/moose/clin_ct_PUMA4_06032024.zip");
     (KStr "filename", PStr "Dataset003_PUMA4.zip");
     (KStr "directory", PStr "Dataset003_PUMA4");
     (KStr "trainer", PStr "nnUNetTrainer_2000epochs");
     (KStr "voxel_spacing", PList [PInt 4; PInt 4; PInt 4]);
     (KStr "multilabel_prefix", PStr "Clin_CT_PUMA4_");
     (KStr "configuration", PStr "3d_fullres");
     (KStr "planner", PStr "nnUNetPlans");
     (KStr "organ_indices", PDict [
       (KInt 0, PStr "background");
       (KInt 1, PStr "Spleen");
       (KInt 2, PStr "Kidneys");
       (KInt 3, PStr "Gallbladder");
       (KInt 4, PStr "Liver");
       (KInt 5, PStr "Stomach");
       (KInt 6, PStr "Pancreas");
       (KInt 7, PStr "Adrenal Glands");
       (KInt 8, PStr "Lungs");
       (KInt 9, PStr "Heart");
       (KInt 10, PStr "Vessels");
       (KInt 11, PStr "Esophagus");
       (KInt 12, PStr "Trachea");
       (KInt 13, PStr "Digestive");
       (KInt 14, PStr "Brain");
       (KInt 15, PStr "Skeleton");
       (KInt 16, PStr "Muscles");
       (KInt 17, PStr "Bladder");
       (KInt 18, PStr "Filler")]);
     (KStr "limit_fov", PNone)]);
  (KStr "clin_ct_liver_segments",
   PDict [
     (KStr "url", PStr "https://enhance-pet.s3.eu-central-1.amazonaws.com/moose/clin_ct_liver_segments_10092024.zip");
     (KStr "filename", PStr "Dataset134_Couinaud.zip");
     (KStr "directory", PStr "Dataset134_Couinaud");
     (KStr "trainer", PStr "nnUNetTrainer_2000epochs_NoMirroring");
     (KStr "voxel_spacing", PList [PFloat 1.5; PFloat 1.5; PFloat 1.5]);
     (KStr "multilabel_prefix", PStr "Clin_CT_liver_segments_");
     (KStr "configuration", PStr "3d_fullres");
     (KStr "planner", PStr "nnUNetPlans");
     (KStr "organ_indices", PDict [
       (KInt 1, PStr "segment_I");
       (KInt 2, PStr "segment_II");
       (KInt 3, PStr "segment_III");
       (KInt 4, PStr "segment_IV");
       (KInt 5, PStr "segment_V");
       (KInt 6, PStr "segment_VI");
       (KInt 7, PStr "segment_VII");
       (KInt 8, PStr "segment_VIII")]);
     (KStr "limit_fov", PDict [
       (KStr "model_to_crop_from", PStr "clin_ct_fast_organs");
       (KStr "inference_fov_intensities", PInt 8);
       (KStr "label_intensity_to_crop_from", PInt 8);
       (KStr "largest_component_only", PBool false)])]);
  (KStr "clin_ct_fast_organs",
   PDict [
     (KStr "url", PStr "https://enhance-pet.s3.eu-central-1.amazonaws.com/moose/clin_ct_organs_6_02092024.zip");
     (KStr "filename", PStr "Dataset145_Fast_organs.zip");
     (KStr "directory", PStr "Dataset145_Fast_organs");
     (KStr "trainer", PStr "nnUNetTrainer_2000epochs");
     (KStr "voxel_spacing", PList [PInt 6; PInt 6; PInt 6]);
     (KStr "multilabel_prefix", PStr "Clin_CT_fast_organs_");
     (KStr "configuration", PStr "3d_fullres");
     (KStr "planner", PStr "nnUNetPlans");
     (KStr "organ_indices", PDict [
       (KInt 1, PStr "adrenal_gland_left");
       (KInt 2, PStr "adrenal_gland_right");
       (KInt 3, PStr "bladder");
       (KInt 4, PStr "brain");
       (KInt 5, PStr "gallbladder");
       (KInt 6, PStr "kidney_left");
       (KInt 7, PStr "kidney_right");
       (KInt 8, PStr "liver");
       (KInt 9, PStr "lung_lower_lobe_left");
       (KInt 10, PStr "lung_lower_lobe_right");
       (KInt 11, PStr "lung_middle_lobe_right");
       (KInt 12, PStr "lung_upper_lobe_left");
       (KInt 13, PStr "lung_upper_lobe_right");
       (KInt 14, PStr "pancreas");
       (KInt 15, PStr "spleen");
       (KInt 16, PStr "stomach");
       (KInt 17, PStr "thyroid_left");
       (KInt 18, PStr "thyroid_right");
       (KInt 19, PStr "trachea")]);
     (KStr "limit_fov", PNone)]);
  (KStr "clin_ct_aorta",
   PDict [
     (KStr "url", PStr "https://enhance-pet.s3.eu-central-1.amazonaws.com/moose/clin_ct_aorta_02092024.zip");
     (KStr "filename", PStr "Dataset321_Aorta.zip");
     (KStr "directory", PStr "Dataset321_Aorta");
     (KStr "trainer", PStr "nnUNetTrainer_2000epochs_NoMirroring");
     (KStr "voxel_spacing", PList [PFloat 1.5; PFloat 1.5; PFloat 1.5]);
     (KStr "multilabel_prefix", PStr "Clin_CT_aorta_");
     (KStr "configuration", PStr "3d_fullres");
     (KStr "planner", PStr "nnUNetPlans");
     (KStr "organ_indices", PDict [
       (KInt 1, PStr "zone_0");
       (KInt 2, PStr "innominate");
       (KInt 3, PStr "zone_1");
       (KInt 4, PStr "left_common_carotid");
       (KInt 5, PStr "zone_2");
       (KInt 6, PStr "left_subclavian_artery");
       (KInt 7, PStr "zone_3");
       (KInt 8, PStr "zone_4");
       (KInt 9, PStr "zone_5");
       (KInt 10, PStr "zone_6");
       (KInt 11, PStr "celiac_artery");
       (KInt 12, PStr "zone_7");
       (KInt 13, PStr "sma");
       (KInt 14, PStr "zone_8");
       (KInt 15, PStr "right_renal_artery");
       (KInt 16, PStr "left_renal_artery");
       (KInt 17, PStr "zone_9");
       (KInt 18, PStr "right_common_iliac_artery");
       (KInt 19, PStr "left_common_iliac_artery");
       (KInt 20, PStr "right_internal_iliac_artery");
       (KInt 21, PStr "left_internal_iliac_artery");
       (KInt 22, PStr "right_external_iliac_artery");
       (KInt 23, PStr "left_external_iliac_artery")]);
     (KStr "limit_fov", PDict [
       (KStr "model_to_crop_from", PStr "clin_ct_fast_cardiac");
       (KStr "inference_fov_intensities", PInt 6);
       (KStr "label_intensity_to_crop_from", PInt 6);
       (KStr "largest_component_only", PBool false)])]);
  (KStr "clin_pt_fdg_tumor",
   PDict [
     (KStr "organ_indices", PDict [
       (KInt 1, PStr "tumor")]);
     (KStr "limit_fov", PNone)]);
  (KStr "clin_ct_body_composition",
   PDict [
     (KStr "url", PStr "https://enhance-pet.s3.eu-central-1.amazonaws.com/moose/clin_ct_body_composition_05092024.zip");
     (KStr "filename", PStr "Dataset778_Body_composition.zip");
     (KStr "directory", PStr "Dataset778_Body_composition");
     (KStr "trainer", PStr "nnUNetTrainer_2000epochs");
     (KStr "voxel_spacing", PList [PFloat 1.5; PFloat 1.5; PFloat 1.5]);
     (KStr "multilabel_prefix", PStr "Clin_CT_body_composition_");
     (KStr "configuration", PStr "3d_fullres");
     (KStr "planner", PStr "nnUNetPlans");
     (KStr "organ_indices", PDict [
       (KInt 1, PStr "skeletal_muscle");
       (KInt 2, PStr "subcutaneous_fat");
       (KInt 3, PStr "visceral_fat")]);
     (KStr "limit_fov", PDict [
       (KStr "model_to_crop_from", PStr "clin_ct_fast_vertebrae");
       (KStr "inference_fov_intensities", PList [PInt 20; PInt 24]);
       (KStr "label_intensity_to_crop_from", PInt 22);
       (KStr "largest_component_only", PBool true)])]);
  (KStr "clin_ct_fast_vertebrae",
   PDict [
     (KStr "url", PStr "https://enhance-pet.s3.eu-central-1.amazonaws.com/moose/clin_ct_vertebrae3_10092024.zip");
     (KStr "filename", PStr "Dataset112_FastVertebrae.zip");
     (KStr "directory", PStr "Dataset112_FastVertebrae");
     (KStr "trainer", PStr "nnUNetTrainer_2000_epochs_DA5NoMirroring");
     (KStr "voxel_spacing", PList [PInt 3; PInt 3; PInt 3]);
     (KStr "multilabel_prefix", PStr "Clin_CT_fast_vertebrae_");
     (KStr "configuration", PStr "3d_fullres");
     (KStr "planner", PStr "nnUNetPlans");
     (KStr "organ_indices", PDict [
       (KInt 1, PStr "vertebra_C1");
       (KInt 2, PStr "vertebra_C2");
       (KInt 3, PStr "vertebra_C3");
       (KInt 4, PStr "vertebra_C4");
       (KInt 5, PStr "vertebra_C5");
       (KInt 6, PStr "vertebra_C6");
       (KInt 7, PStr "vertebra_C7");
       (KInt 8, PStr "vertebra_T1");
       (KInt 9, PStr "vertebra_T2");
       (KInt 10, PStr "vertebra_T3");
       (KInt 11, PStr "vertebra_T4");
       (KInt 12, PStr "vertebra_T5");
       (KInt 13, PStr "vertebra_T6");
       (KInt 14, PStr "vertebra_T7");
       (KInt 15, PStr "vertebra_T8");
       (KInt 16, PStr "vertebra_T9");
       (KInt 17, PStr "vertebra_T10");
       (KInt 18, PStr "vertebra_T11");
       (KInt 19, PStr "vertebra_T12");
       (KInt 20, PStr "vertebra_L1");
       (KInt 21, PStr "vertebra_L2");
       (KInt 22, PStr "vertebra_L3");
       (KInt 23, PStr "vertebra_L4");
       (KInt 24, PStr "vertebra_L5");
       (KInt 25, PStr "vertebra_L6");
       (KInt 26, PStr "hip_left");
       (KInt 27, PStr "hip_right");
       (KInt 28, PStr "sacrum")]);
     (KStr "limit_fov", PNone)]);
  (KStr "clin_ct_fast_cardiac",
   PDict [
     (KStr "url", PStr "https://enhance-pet.s3.eu-central-1.amazonaws.com/moose/clin_ct_cardiac3_10092024.zip");
     (KStr "filename", PStr "Dataset890_FastCardiac.zip");
     (KStr "directory", PStr "Dataset890_FastCardiac");
     (KStr "trainer", PStr "nnUNetTrainer_2000epochs_NoMirroring");
     (KStr "voxel_spacing", PList [PInt 3; PInt 3; PInt 3]);
     (KStr "multilabel_prefix", PStr "CT_Fast_Cardiac_");
     (KStr "configuration", PStr "3d_fullres");
     (KStr "planner", PStr "nnUNetPlans");
     (KStr "organ_indices", PDict [
       (KInt 1, PStr "heart_myocardium");
       (KInt 2, PStr "heart_atrium_left");
       (KInt 3, PStr "heart_atrium_right");
       (KInt 4, PStr "heart_ventricle_left");
       (KInt 5, PStr "heart_ventricle_right");
       (KInt 6, PStr "aorta");
       (KInt 7, PStr "iliac_artery_left");
       (KInt 8, PStr "iliac_artery_right");
       (KInt 9, PStr "iliac_vena_left");
       (KInt 10, PStr "iliac_vena_right");
       (KInt 11, PStr "inferior_vena_cava");
       (KInt 12, PStr "portal_splenic_vein");
       (KInt 13, PStr "pulmonary_artery")]);
     (KStr "limit_fov", PNone)])].

Definition AVAILABLE_MODELS : list pykey := dict_keys MODELS.

(** The table local to [expected_modality]. *)
Definition expected_modality_models : dict :=
[
      (KStr "clin_ct_lungs",
       PDict [(KStr "Imaging", PStr "Clinical"); (KStr "Modality", PStr "CT"); (KStr "Tissue of interest", PStr "Lungs")]);
      (KStr "clin_ct_organs",
       PDict [(KStr "Imaging", PStr "Clinical"); (KStr "Modality", PStr "CT"); (KStr "Tissue of interest", PStr "Organs")]);
      (KStr "clin_ct_body",
       PDict [(KStr "Imaging", PStr "Clinical"); (KStr "Modality", PStr "CT"); (KStr "Tissue of interest", PStr "Body, Arms, legs, head")]);
      (KStr "preclin_mr_all",
       PDict [(KStr "Imaging", PStr "Pre-clinical"); (KStr "Modality", PStr "MR"); (KStr "Tissue of interest", PStr "All regions")]);
      (KStr "clin_ct_ribs",
       PDict [(KStr "Imaging", PStr "Clinical"); (KStr "Modality", PStr "CT"); (KStr "Tissue of interest", PStr "Ribs")]);
      (KStr "clin_ct_muscles",
       PDict [(KStr "Imaging", PStr "Clinical"); (KStr "Modality", PStr "CT"); (KStr "Tissue of interest", PStr "Muscles")]);
      (KStr "clin_ct_peripheral_bones",
       PDict [(KStr "Imaging", PStr "Clinical"); (KStr "Modality", PStr "CT"); (KStr "Tissue of interest", PStr "Peripheral Bones")]);
      (KStr "clin_ct_fat",
       PDict [(KStr "Imaging", PStr "Clinical"); (KStr "Modality", PStr "CT"); (KStr "Tissue of interest", PStr "Fat")]);
      (KStr "clin_ct_vertebrae",
       PDict [(KStr "Imaging", PStr "Clinical"); (KStr "Modality", PStr "CT"); (KStr "Tissue of interest", PStr "Vertebrae")]);
      (KStr "clin_ct_cardiac",
       PDict [(KStr "Imaging", PStr "Clinical"); (KStr "Modality", PStr "CT"); (KStr "Tissue of interest", PStr "Cardiac")]);
      (KStr "clin_ct_digestive",
       PDict [(KStr "Imaging", PStr "Clinical"); (KStr "Modality", PStr "CT"); (KStr "Tissue of interest", PStr "Digestive")]);
      (KStr "preclin_ct_legs",
       PDict [(KStr "Imaging", PStr "Pre-clinical"); (KStr "Modality", PStr "CT"); (KStr "Tissue of interest", PStr "Legs")]);
      (KStr "clin_ct_all_bones_v1",
       PDict [(KStr "Imaging", PStr "Clinical"); (KStr "Modality", PStr "CT"); (KStr "Tissue of interest", PStr "All bones")]);
      (KStr "clin_ct_PUMA",
       PDict [(KStr "Imaging", PStr "Clinical"); (KStr "Modality", PStr "CT"); (KStr "Tissue of interest", PStr "PUMA tissues")]);
      (KStr "clin_pt_fdg_brain_v1",
       PDict [(KStr "Imaging", PStr "Clinical"); (KStr "Modality", PStr "PT"); (KStr "Tissue of interest", PStr "Brain regions")]);
      (KStr "clin_ct_ALPACA",
       PDict [(KStr "Imaging", PStr "Clinical"); (KStr "Modality", PStr "CT"); (KStr "Tissue of interest", PStr "ALPACA tissues")]);
      (KStr "clin_ct_PUMA4",
       PDict [(KStr "Imaging", PStr "Clinical"); (KStr "Modality", PStr "CT"); (KStr "Tissue of interest", PStr "PUMA tissues")]);
      (KStr "clin_ct_liver_segments",
       PDict [(KStr "Imaging", PStr "Clinical"); (KStr "Modality", PStr "CT"); (KStr "Tissue of interest", PStr "Liver segments")]);
      (KStr "clin_ct_fast_organs",
       PDict [(KStr "Imaging", PStr "Clinical"); (KStr "Modality", PStr "CT"); (KStr "Tissue of interest", PStr "Organs")]);
      (KStr "clin_ct_aorta",
       PDict [(KStr "Imaging", PStr "Clinical"); (KStr "Modality", PStr "CT"); (KStr "Tissue of interest", PStr "Aorta segments")]);
      (KStr "clin_ct_body_composition",
       PDict [(KStr "Imaging", PStr "Clinical"); (KStr "Modality", PStr "CT"); (KStr "Tissue of interest", PStr "Body composition on the L3 vertebra region")])].

Definition model_not_available : string :=
  "Requested model is not available. Please check the model name.".

Section with_host.
Context {H : Host}.

Definition expected_modality (model_name : string) : M pyvalue :=
  let models := expected_modality_models in
  match dict_get models (KStr model_name) with
  | Some model =>                        (* model_name in models *)
      model <- lift (setitem model (KStr "Model name") (PStr model_name)) ;;
      ret model
  | None =>
      logging_error (" " ++ model_not_available) ;;
      ret (PDict [(KStr "Error", PStr model_not_available)])
  end.

Context {T : Torch}.

Definition check_device : M string :=
  w <- get_world ;;
  (* Check for CUDA *)
  if cuda_is_available w then
    let device_count := cuda_device_count w in
    print (" CUDA is available with " ++ str_int device_count ++
           " GPU(s). Predictions will be run on GPU.") ;;
    ret "cuda"
  (* Check for MPS (Apple Silicon) *)
  else if mps_is_available w then
    print " Apple MPS backend is available. Predictions will be run on Apple Silicon GPU." ;;
    ret "mps"
  else if negb (mps_is_built w) then
    print " MPS not available because the current PyTorch install was not built with MPS enabled." ;;
    ret "cpu"
  else
    print " CUDA/MPS not available. Predictions will be run on CPU." ;;
    ret "cpu".

End with_host.

End resources.

(* ===================================================================== *)
(** ** moosez/predict.py                                                  *)
(* ===================================================================== *)

Module predict.

Definition map_model_name_to_task_number (model_name : string) : result Z :=
  if String.eqb model_name "clin_ct_bones" then Ok 201
  else if String.eqb model_name "clin_ct_ribs" then Ok 202
  else if String.eqb model_name "clin_ct_vertebrae" then Ok 203
  else if String.eqb model_name "clin_ct_muscles" then Ok 204
  else if String.eqb model_name "clin_ct_lungs" then Ok 205
  else if String.eqb model_name "clin_ct_fat" then Ok 206
  else if String.eqb model_name "clin_ct_vessels" then Ok 207
  else if String.eqb model_name "clin_ct_organs" then Ok 208
  else if String.eqb model_name "clin_pt_fdg_tumor" then Ok 209
  else if String.eqb model_name "clin_ct_all" then Ok 210
  else if String.eqb model_name "clin_fdg_pt_ct_all" then Ok 211
  else if String.eqb model_name "preclin_mr_all" then Ok 212
  else Raise (Exception ("Error: The model name '" ++ model_name ++ "' is not valid.")).

(** The command line that [predict] hands to the shell. *)
Definition nnUNet_predict_command (input_dir output_dir : string) (task_number : Z) : string :=
  "nnUNet_predict -i " ++ input_dir ++ " -o " ++ output_dir ++
  " -t " ++ str_int task_number ++ " -m 3d_fullres -f all".

Section with_host.
Context {H : Host}.

Definition predict (model_name input_dir output_dir : string) : M pyvalue :=
  task_number <- lift (map_model_name_to_task_number model_name) ;;
  setenv "RESULTS_FOLDER" NNUNET_RESULTS_FOLDER ;;
  _ <- subprocess_run (nnUNet_predict_command input_dir output_dir task_number) ;;
  ret PNone.

Definition run_prediction (model_name : string) (input_dirs output_dirs : list string)
  : M pyvalue :=
  (* spinner = Halo(text='Running prediction', spinner='dots'): not started *)
  for_each (combine input_dirs output_dirs)
    (fun p => _ <- predict model_name (fst p) (snd p) ;; ret tt) ;;
  emit (SpinnerSucceed "Prediction complete") ;;
  ret PNone.

End with_host.

End predict.

(* ===================================================================== *)
(** ** moosez/moosez.py                                                   *)
(* ===================================================================== *)

Module moosez.

(** The [choices] of the [--model_name] option. *)
Definition model_name_choices : list string :=
  ["clin_ct_bones";
   "clin_ct_ribs";
   "clin_ct_vertebrae";
   "clin_ct_muscles";
   "clin_ct_lungs";
   "clin_ct_fat";
   "clin_ct_vessels";
   "clin_ct_organs";
   "clin_pt_fdg_tumor";
   "clin_ct_all";
   "clin_fdg_pt_ct_all";
   "preclin_mr_all"].

(** [list.remove(x)]: drops the first occurrence. *)
Fixpoint list_remove (x : string) (l : list string) : list string :=
  match l with
  | [] => []
  | y :: l' => if String.eqb y x then l' else y :: list_remove x l'
  end.

Definition banner_rule : string :=
  "****************************************************************************************************".

Definition banner_title : string :=
  "                                     STARTING MOOSE-Z V.2.0.0                                       ".

Section with_host.
Context {H : Host}.

(** [parser.parse_args()] on a command line that gives both required
    options: for a model name outside [choices] argparse writes its usage
    error to standard error and ends the process with status 2. *)
Definition parse_args (main_directory model_name : string) : M (string * string) :=
  if existsb (String.eqb model_name) model_name_choices
  then ret (main_directory, model_name)
  else emit (UsageError "-m/--model_name" model_name) ;; raise (SystemExit 2).

(** The local variables of [main] that are live once the data are ready. *)
Record locals : Type := mkLocals {
  parent_folder : string;
  model_name : string;
  model_path : string;
  modalities : pyvalue;
  moose_dir : string;
  input_dirs : list string;
  output_dirs : list string;
  moose_compliant_subjects : list string
}.

(** [main], from its first line to [spinner.succeed('Data ready for
    prediction')]. *)
Definition main_prepare (main_directory model_name_arg : string) : M locals :=
  args <- parse_args main_directory model_name_arg ;;
  let parent_folder := abspath (fst args) in
  let model_name := snd args in
  call display_logo ;;
  call display_citation ;;
  logging_info banner_rule ;;
  logging_info banner_title ;;
  logging_info banner_rule ;;
  (* INPUT VALIDATION AND PREPARATION *)
  logging_info " " ;;
  logging_info ("- Main directory: " ++ parent_folder) ;;
  logging_info ("- Model name: " ++ model_name) ;;
  logging_info " " ;;
  print " " ;;
  print " NOTE:" ;;
  print " " ;;
  call (display_expectations model_name) ;;
  (* DOWNLOADING THE MODEL *)
  print "" ;;
  print " MODEL DOWNLOAD:" ;;
  print "" ;;
  model_path <- call nnunet_folder_structure ;;
  call (download_model model_name model_path) ;;
  (* CHECKING FOR EXPECTED MODALITIES *)
  emit StdoutToDevnull ;;
  modalities <- call (display_expected_modality model_name) ;;
  emit StdoutRestored ;;
  (* SETTING UP DIRECTORY STRUCTURE *)
  print "" ;;
  print " SETTING UP MOOSE-Z DIRECTORY FOR BATCH PROCESSING:" ;;
  print "" ;;
  logging_info " " ;;
  logging_info " SETTING UP MOOSE-Z DIRECTORY FOR BATCH PROCESSING:" ;;
  logging_info " " ;;
  dirs <- call (moose_folder_structure parent_folder model_name modalities) ;;
  let moose_dir := fst (fst dirs) in
  let input_dirs := snd (fst dirs) in
  let output_dirs := snd dirs in
  print (" MOOSE directory for the current run set at: " ++ moose_dir) ;;
  logging_info (" MOOSE directory for the current run set at: " ++ moose_dir) ;;
  (* INPUT STANDARDIZATION *)
  print "" ;;
  print " STANDARDIZING INPUT DATA:" ;;
  print "" ;;
  logging_info " " ;;
  logging_info " STANDARDIZING INPUT DATA:" ;;
  logging_info " " ;;
  (* PREPARE THE DATA FOR PREDICTION *)
  entries <- query (listdir parent_folder) ;;
  w <- get_world ;;
  let subjects :=
    map (path_join parent_folder)
        (filter (fun d => isdir (path_join parent_folder d) w) entries) in
  let subjects :=
    if existsb (String.eqb moose_dir) subjects
    then list_remove moose_dir subjects
    else subjects in
  moose_compliant_subjects <- call (select_moose_compliant_subjects subjects modalities) ;;
  call (organise_files_by_modality moose_compliant_subjects modalities moose_dir) ;;
  emit (SpinnerStart "Preparing data for prediction") ;;
  for_each input_dirs (fun input_dir => call (make_nnunet_compatible input_dir)) ;;
  emit (SpinnerSucceed "Data ready for prediction") ;;
  ret (mkLocals parent_folder model_name model_path modalities
                moose_dir input_dirs output_dirs moose_compliant_subjects).

(** [main], the part under the comment [# RUN PREDICTION], to the end of
    the function. *)
Definition main_run_prediction (l : locals) : M unit :=
  print "" ;;
  print " RUNNING PREDICTION:" ;;
  print "" ;;
  logging_info " " ;;
  logging_info " RUNNING PREDICTION:" ;;
  logging_info " "
  (* Run the segmentation on the standardized data and save the results in the output directory *)
  (* Push back the results to their original locations *).

Definition main (main_directory model_name_arg : string) : M unit :=
  l <- main_prepare main_directory model_name_arg ;;
  main_run_prediction l.

End with_host.

End moosez.

Import resources predict moosez.

(* ===================================================================== *)
(** ** A concrete host for running the model                              *)
(* ===================================================================== *)

Module Demo.

(** The world is a journal of what the surroundings were asked to do. *)
Definition journal : Type := list string.

Definition noted {A : Type} (what : string) (a : A) (w : journal) : result A * journal :=
  (Ok a, (w ++ [what])%list).

(** A host with two subject folders under the main directory, whose engine
    always exits with [rc]. *)
Definition host (rc : Z) : Host := {|
  world := journal;
  abspath := fun p => p;
  path_join := fun a b => a ++ "/" ++ b;
  listdir := fun _ _ => Ok ["S1"; "S2"; "moosez-run"];
  isdir := fun _ _ => true;
  shell := fun cmd _ w => (rc, (w ++ [("sh -c " ++ cmd)%string])%list);
  NNUNET_RESULTS_FOLDER := "/models/nnunet_trained_models";
  display_logo := noted "display.logo" tt;
  display_citation := noted "display.citation" tt;
  display_expectations := fun m => noted ("display.expectations " ++ m) tt;
  display_expected_modality :=
    fun m => noted ("display.expected_modality " ++ m) (PDict [(KStr "Modality", PStr "CT")]);
  download_model := fun m p => noted ("download.model " ++ m ++ " " ++ p) tt;
  nnunet_folder_structure :=
    noted "file_utilities.nnunet_folder_structure" "/models";
  moose_folder_structure :=
    fun parent m _ =>
      noted "file_utilities.moose_folder_structure"
        (parent ++ "/moosez-run",
         [parent ++ "/moosez-run/S1/in"; parent ++ "/moosez-run/S2/in"],
         [parent ++ "/moosez-run/S1/out"; parent ++ "/moosez-run/S2/out"]);
  organise_files_by_modality :=
    fun _ _ _ => noted "file_utilities.organise_files_by_modality" tt;
  select_moose_compliant_subjects :=
    fun subjects _ => noted "input_validation.select_moose_compliant_subjects" subjects;
  make_nnunet_compatible :=
    fun d => noted ("input_validation.make_nnunet_compatible " ++ d) tt
|}.

(** The interpreter state at start-up, with the registry as the source
    writes it. *)
Definition start (rc : Z) : @state (host rc) :=
  @mkState (host rc) [] [("PATH", "/usr/bin")] MODELS [].

(** The same, after [MODELS["clin_ct_liver_segments"]["limit_fov"] = None]. *)
Definition MODELS_without_liver_crop : dict :=
  match dict_get MODELS (KStr "clin_ct_liver_segments") with
  | Some (PDict d) =>
      dict_set MODELS (KStr "clin_ct_liver_segments")
               (PDict (dict_set d (KStr "limit_fov") PNone))
  | _ => MODELS
  end.

(** The value of [MODELS["clin_ct_liver_segments"]["limit_fov"]]. *)
Definition liver_segments_limit_fov : pyvalue :=
  PDict [(KStr "model_to_crop_from", PStr "clin_ct_fast_organs");
         (KStr "inference_fov_intensities", PInt 8);
         (KStr "label_intensity_to_crop_from", PInt 8);
         (KStr "largest_component_only", PBool false)].

Definition start_without_liver_crop (rc : Z) : @state (host rc) :=
  @mkState (host rc) [] [("PATH", "/usr/bin")] MODELS_without_liver_crop [].



End Demo.

(* ===================================================================== *)
(** ** Observations on states and traces                                  *)
(* ===================================================================== *)

(** The command lines handed to [subprocess.run], in order. *)
Fixpoint commands (tr : list event) : list string :=
  match tr with
  | [] => []
  | SubprocessRun cmd _ :: tr' => cmd :: commands tr'
  | _ :: tr' => commands tr'
  end.

Definition is_subprocess (e : event) : bool :=
  match e with SubprocessRun _ _ => true | _ => false end.

Definition print_or_log (e : event) : bool :=
  match e with Print _ | Log _ _ => true | _ => false end.

(** A registry with every [limit_fov] value blanked: two registries differ
    only in their [limit_fov] values when this erasure makes them equal. *)
Definition erase_limit_fov_fields (d : dict) : dict :=
  map (fun kv => if key_eqb (fst kv) (KStr "limit_fov") then (fst kv, PNone) else kv) d.

Definition erase_limit_fov (registry : dict) : dict :=
  map (fun kv =>
         match snd kv with
         | PDict d => (fst kv, PDict (erase_limit_fov_fields d))
         | _ => kv
         end) registry.

Section observations.
Context {H : Host}.

Definition with_MODELS (registry : dict) (s : state) : state :=
  mkState (st_world s) (st_environ s) registry (st_trace s).

(** Two interpreter states that differ at most in the [limit_fov] values of
    the registry. *)
Definition agree_up_to_limit_fov (s1 s2 : state) : Prop :=
  st_world s1 = st_world s2 /\
  st_environ s1 = st_environ s2 /\
  st_trace s1 = st_trace s2 /\
  erase_limit_fov (st_MODELS s1) = erase_limit_fov (st_MODELS s2).

(** [m] only appends events, and all of them satisfy [P]. *)
Definition appends (P : event -> bool) {A : Type} (m : M A) : Prop :=
  forall s, exists tr,
    st_trace (snd (m s)) = (st_trace s ++ tr)%list /\ forallb P tr = true.

(** [m] neither reads nor writes the registry. *)
Definition oblivious {A : Type} (m : M A) : Prop :=
  forall s registry,
    m (with_MODELS registry s) = (fst (m s), with_MODELS registry (snd (m s))).

(** [m] leaves [os.environ] and the registry alone and appends events
    [tr] with [Q r tr], where [r] is its result or the exception it
    raises. *)
Definition outcome {A : Type} (m : M A) (Q : result A -> list event -> Prop) : Prop :=
  forall s, exists tr,
    st_trace (snd (m s)) = (st_trace s ++ tr)%list /\
    st_environ (snd (m s)) = st_environ s /\
    st_MODELS (snd (m s)) = st_MODELS s /\
    Q (fst (m s)) tr.

(** What the claim on exit codes asks of a call's outcome: the caller gets
    the code, as the returned value or inside the raised exception. *)
Definition surfaces (r : result pyvalue) (code : Z) : Prop :=
  r = Ok (PInt code) \/ exists cmd, r = Raise (CalledProcessError code cmd).

(** The return code the engine gives to the command of [predict] in state [s]. *)
Definition engine_returncode (input_dir output_dir : string) (task_number : Z) (s : state) : Z :=
  fst (shell (nnUNet_predict_command input_dir output_dir task_number)
             (env_set (st_environ s) "RESULTS_FOLDER" NNUNET_RESULTS_FOLDER)
             (st_world s)).

(** Command lines run by the shell one after the other, each in the world
    the one before has left: the events and the world at the end. *)
Fixpoint engine_runs (cmds : list string) (env : list (string * string)) (w : world)
  : list event * world :=
  match cmds with
  | [] => ([], w)
  | cmd :: cmds' =>
      let r := shell cmd env w in
      let rest := engine_runs cmds' env (snd r) in
      (SubprocessRun cmd (fst r) :: fst rest, snd rest)
  end.

(** The elements of [l] for which the loop [for x in l: body(x)] starts
    its body: each in turn, up to and including the first whose body
    raises. *)
Fixpoint started {A : Type} (l : list A) (body : A -> M unit) (s : state) : list A :=
  match l with
  | [] => []
  | x :: l' =>
      x :: match body x s with
           | (Ok _, s') => started l' body s'
           | (Raise _, _) => []
           end
  end.

(** The calls of [predict] that [run_prediction] makes, in order. *)
Definition predict_calls (model_name : string) (input_dirs output_dirs : list string)
           (s : state) : list (string * string) :=
  started (combine input_dirs output_dirs)
          (fun p => _ <- predict.predict model_name (fst p) (snd p) ;; ret tt) s.

(** The spec's reading of [run_prediction]: whatever the model name, one
    call of [predict] per pair. *)
Definition predict_once_per_pair : Prop :=
  forall model_name input_dirs output_dirs s,
    predict_calls model_name input_dirs output_dirs s = combine input_dirs output_dirs.

(** The spec's reading of [predict]: a non-zero exit code reaches the caller. *)
Definition exit_code_propagated : Prop :=
  forall model_name input_dir output_dir task_number s,
    map_model_name_to_task_number model_name = Ok task_number ->
    engine_returncode input_dir output_dir task_number s <> 0 ->
    surfaces (fst (predict.predict model_name input_dir output_dir s))
             (engine_returncode input_dir output_dir task_number s).

(** The spec's reading of the command line: the configuration is the one
    the registry declares for the model. *)
Definition spec_command (registry : dict) (model_name input_dir output_dir : string)
  : option string :=
  match map_model_name_to_task_number model_name, dict_get registry (KStr model_name) with
  | Ok task_number, Some descriptor =>
      match field descriptor "configuration" with
      | Some (PStr configuration) =>
          Some ("nnUNet_predict -i " ++ input_dir ++ " -o " ++ output_dir ++
                " -t " ++ str_int task_number ++ " -m " ++ configuration ++ " -f all")
      | _ => None
      end
  | _, _ => None
  end.

Definition command_follows_registry : Prop :=
  forall model_name input_dir output_dir s cmd,
    spec_command (st_MODELS s) model_name input_dir output_dir = Some cmd ->
    commands (st_trace (snd (predict.predict model_name input_dir output_dir s)))
    = (commands (st_trace s) ++ [cmd])%list.

End observations.

(** [os.environ.get(k)]. *)
Fixpoint env_get (env : list (string * string)) (k : string) : option string :=
  match env with
  | [] => None
  | (k', v) :: env' => if String.eqb k' k then Some v else env_get env' k
  end.

(** What [main] itself prints and logs up to [spinner.succeed('Data ready
    for prediction')], and to its end. *)
Definition prepare_transcript (parent_folder model_name moose_dir : string) : list event :=
  [Log INFO banner_rule; Log INFO banner_title; Log INFO banner_rule;
   Log INFO " ";
   Log INFO ("- Main directory: " ++ parent_folder);
   Log INFO ("- Model name: " ++ model_name);
   Log INFO " ";
   Print " "; Print " NOTE:"; Print " ";
   Print ""; Print " MODEL DOWNLOAD:"; Print "";
   StdoutToDevnull; StdoutRestored;
   Print ""; Print " SETTING UP MOOSE-Z DIRECTORY FOR BATCH PROCESSING:"; Print "";
   Log INFO " "; Log INFO " SETTING UP MOOSE-Z DIRECTORY FOR BATCH PROCESSING:"; Log INFO " ";
   Print (" MOOSE directory for the current run set at: " ++ moose_dir);
   Log INFO (" MOOSE directory for the current run set at: " ++ moose_dir);
   Print ""; Print " STANDARDIZING INPUT DATA:"; Print "";
   Log INFO " "; Log INFO " STANDARDIZING INPUT DATA:"; Log INFO " ";
   SpinnerStart "Preparing data for prediction";
   SpinnerSucceed "Data ready for prediction"].

Definition main_transcript (parent_folder model_name moose_dir : string) : list event :=
  (prepare_transcript parent_folder model_name moose_dir ++
   [Print ""; Print " RUNNING PREDICTION:"; Print "";
    Log INFO " "; Log INFO " RUNNING PREDICTION:"; Log INFO " "])%list.

(** The string values that the entries of a registry give to one field, in
    registry order. *)
Definition string_fields (name : string) (registry : dict) : list string :=
  flat_map (fun kv => match field (snd kv) name with
                      | Some (PStr v) => [v]
                      | _ => []
                      end) registry.

Fixpoint distinct (l : list string) : bool :=
  match l with
  | [] => true
  | x :: l' => negb (existsb (String.eqb x) l') && distinct l'
  end.

(** A length in millimetres: a positive [int] or [float]. *)
Definition positive_number (v : pyvalue) : bool :=
  match v with
  | PInt n => 0 <? n
  | PFloat q => 0 <? Qnum q
  | _ => false
  end.

(** The labels an [inference_fov_intensities] value stands for: one [int]
    or a list of them. *)
Definition int_items (v : pyvalue) : option (list Z) :=
  match v with
  | PInt n => Some [n]
  | PList l =>
      fold_right (fun x acc => match x, acc with
                               | PInt n, Some ns => Some (n :: ns)
                               | _, _ => None
                               end) (Some []) l
  | _ => None
  end.

(** The naming scheme of the header comment of the registry: clinical or
    preclinical, then the modality tag; with the fields of the modality
    table that go with each. *)
Definition name_schemes : list (string * (string * string)) :=
  [("clin_ct_", ("Clinical", "CT"));
   ("clin_pt_", ("Clinical", "PT"));
   ("clin_mr_", ("Clinical", "MR"));
   ("preclin_ct_", ("Pre-clinical", "CT"));
   ("preclin_pt_", ("Pre-clinical", "PT"));
   ("preclin_mr_", ("Pre-clinical", "MR"))].

(** The crop dependency of one registry entry is well formed: no
    [limit_fov], or one that names an entry of the registry which itself has
    none. *)
Definition crop_sources : list string :=
  ["clin_ct_fast_organs"; "clin_ct_fast_cardiac"; "clin_ct_fast_vertebrae"].

Definition crop_ok (registry : dict) (entry : pykey * pyvalue) : bool :=
  match field (snd entry) "limit_fov" with
  | None => false
  | Some PNone => true
  | Some limit_fov =>
      match field limit_fov "model_to_crop_from" with
      | Some (PStr target) =>
          existsb (String.eqb target) crop_sources &&
          match dict_get registry (KStr target) with
          | Some descriptor =>
              match field descriptor "limit_fov" with
              | Some PNone => true
              | _ => false
              end
          | None => false
          end
      | _ => false
      end
  end.

(** The four fields the registry's header comment and the spec name. *)
Definition has_field (name : string) (entry : pykey * pyvalue) : bool :=
  match field (snd entry) name with Some _ => true | None => false end.

(* ===================================================================== *)
(** ** Lemmas on the effect monad                                         *)
(* ===================================================================== *)

Lemma commands_app (tr1 tr2 : list event) :
  commands (tr1 ++ tr2)%list = (commands tr1 ++ commands tr2)%list.
Proof.
  induction tr1 as [| e tr1 IH]; simpl; [reflexivity |].
  destruct e; simpl; rewrite ?IH; reflexivity.
Qed.

Lemma no_subprocess_no_commands (tr : list event) :
  forallb (fun e => negb (is_subprocess e)) tr = true -> commands tr = [].
Proof.
  induction tr as [| e tr IH]; simpl; [reflexivity |].
  intros Hall. apply andb_prop in Hall. destruct Hall as [He Htr].
  destruct e; simpl in He; try discriminate; auto.
Qed.

Section effect_lemmas.
Context {H : Host}.

Lemma with_MODELS_same (s : state) : with_MODELS (st_MODELS s) s = s.
Proof. destruct s; reflexivity. Qed.

(** *** Events appended *)

Section appends_rules.
Variable P : event -> bool.

Lemma appends_ret {A} (a : A) : appends P (ret a).
Proof. intros s. exists []. simpl. rewrite app_nil_r. auto. Qed.

Lemma appends_raise {A} (e : exn) : appends P (@raise _ A e).
Proof. intros s. exists []. simpl. rewrite app_nil_r. auto. Qed.

Lemma appends_lift {A} (r : result A) : appends P (lift r).
Proof. intros s. exists []. simpl. rewrite app_nil_r. auto. Qed.

Lemma appends_query {A} (f : world -> result A) : appends P (query f).
Proof. intros s. exists []. simpl. rewrite app_nil_r. auto. Qed.

Lemma appends_get_world : appends P get_world.
Proof. intros s. exists []. simpl. rewrite app_nil_r. auto. Qed.

Lemma appends_call {A} (f : world -> result A * world) : appends P (call f).
Proof.
  intros s. exists []. unfold call. destruct (f (st_world s)) as [r w].
  simpl. rewrite app_nil_r. auto.
Qed.

Lemma appends_setenv (k v : string) : appends P (setenv k v).
Proof. intros s. exists []. simpl. rewrite app_nil_r. auto. Qed.

Lemma appends_emit (e : event) : P e = true -> appends P (emit e).
Proof. intros He s. exists [e]. simpl. rewrite He. auto. Qed.

Lemma appends_bind {A B} (m : M A) (k : A -> M B) :
  appends P m -> (forall a, appends P (k a)) -> appends P (bind m k).
Proof.
  intros Hm Hk s. unfold bind.
  destruct (Hm s) as [tr1 [E1 F1]].
  destruct (m s) as [[a | e] s1]; simpl in E1.
  - destruct (Hk a s1) as [tr2 [E2 F2]].
    exists (tr1 ++ tr2)%list. rewrite E2, E1, app_assoc, forallb_app, F1, F2. auto.
  - exists tr1. auto.
Qed.

Lemma appends_for_each {A} (l : list A) (body : A -> M unit) :
  (forall x, appends P (body x)) -> appends P (for_each l body).
Proof.
  intros Hbody. induction l as [| x l IH]; simpl.
  - apply appends_ret.
  - apply appends_bind; auto.
Qed.

Lemma appends_parse_args (main_directory model_name : string) :
  (forall option value, P (UsageError option value) = true) ->
  appends P (parse_args main_directory model_name).
Proof.
  intros Husage. unfold parse_args.
  destruct (existsb _ _); [apply appends_ret |].
  apply appends_bind; [apply appends_emit; apply Husage | intros; apply appends_raise].
Qed.

End appends_rules.

(** *** Code that does not touch the registry *)

Lemma oblivious_ret {A} (a : A) : oblivious (ret a).
Proof. intros s r. reflexivity. Qed.

Lemma oblivious_raise {A} (e : exn) : oblivious (@raise _ A e).
Proof. intros s r. reflexivity. Qed.

Lemma oblivious_lift {A} (x : result A) : oblivious (lift x).
Proof. intros s r. reflexivity. Qed.

Lemma oblivious_query {A} (f : world -> result A) : oblivious (query f).
Proof. intros s r. reflexivity. Qed.

Lemma oblivious_get_world : oblivious get_world.
Proof. intros s r. reflexivity. Qed.

Lemma oblivious_call {A} (f : world -> result A * world) : oblivious (call f).
Proof.
  intros s r. unfold call. simpl. destruct (f (st_world s)); reflexivity.
Qed.

Lemma oblivious_setenv (k v : string) : oblivious (setenv k v).
Proof. intros s r. reflexivity. Qed.

Lemma oblivious_emit (e : event) : oblivious (emit e).
Proof. intros s r. reflexivity. Qed.

Lemma oblivious_subprocess_run (cmd : string) : oblivious (subprocess_run cmd).
Proof.
  intros s r. unfold subprocess_run. simpl.
  destruct (shell cmd (st_environ s) (st_world s)); reflexivity.
Qed.

Lemma oblivious_bind {A B} (m : M A) (k : A -> M B) :
  oblivious m -> (forall a, oblivious (k a)) -> oblivious (bind m k).
Proof.
  intros Hm Hk s r. unfold bind. rewrite Hm.
  destruct (m s) as [[a | e] s1]; simpl.
  - apply Hk.
  - reflexivity.
Qed.

Lemma oblivious_for_each {A} (l : list A) (body : A -> M unit) :
  (forall x, oblivious (body x)) -> oblivious (for_each l body).
Proof.
  intros Hbody. induction l as [| x l IH]; simpl.
  - apply oblivious_ret.
  - apply oblivious_bind; auto.
Qed.

Lemma oblivious_parse_args (main_directory model_name : string) :
  oblivious (parse_args main_directory model_name).
Proof.
  unfold parse_args.
  destruct (existsb _ _); [apply oblivious_ret |].
  apply oblivious_bind; [apply oblivious_emit | intros; apply oblivious_raise].
Qed.

Lemma oblivious_keeps_registry {A} (m : M A) (s : state) :
  oblivious m -> st_MODELS (snd (m s)) = st_MODELS s.
Proof.
  intros Hm. specialize (Hm s (st_MODELS s)).
  rewrite with_MODELS_same in Hm.
  destruct (m s) as [r s1]. simpl in *.
  inversion Hm as [Hs1]. rewrite Hs1 at 1. reflexivity.
Qed.

Lemma oblivious_same_outcome {A} (m : M A) (s1 s2 : state) :
  oblivious m ->
  agree_up_to_limit_fov s1 s2 ->
  fst (m s1) = fst (m s2) /\ agree_up_to_limit_fov (snd (m s1)) (snd (m s2)).
Proof.
  intros Hm (Hw & He & Ht & Hr).
  assert (Hs2 : s2 = with_MODELS (st_MODELS s2) s1).
  { destruct s1, s2; simpl in *; subst; reflexivity. }
  pose proof (oblivious_keeps_registry m s1 Hm) as Hkeep.
  assert (E : m s2 = (fst (m s1), with_MODELS (st_MODELS s2) (snd (m s1)))).
  { rewrite Hs2 at 1. apply Hm. }
  rewrite E. simpl.
  split; [reflexivity |].
  unfold agree_up_to_limit_fov. simpl. rewrite Hkeep. auto.
Qed.

End effect_lemmas.

Create HintDb effects.
#[local] Hint Resolve appends_ret appends_raise appends_lift appends_query
  appends_get_world appends_call appends_setenv appends_parse_args
  oblivious_ret oblivious_raise oblivious_lift oblivious_query
  oblivious_get_world oblivious_call oblivious_setenv oblivious_emit
  oblivious_subprocess_run oblivious_parse_args : effects.

(** Walks down a chain of binds, leaving the leaves to the hint base. *)
Ltac effects_step :=
  cbv zeta;
  first
    [ apply appends_bind; [ | intros ? ]
    | apply oblivious_bind; [ | intros ? ]
    | apply appends_for_each; intros ?
    | apply oblivious_for_each; intros ?
    | apply appends_emit; reflexivity
    | solve [ auto with effects ] ].

Ltac effects := repeat effects_step.

(* ===================================================================== *)
(** ** The registry                                                       *)
(* ===================================================================== *)

(** The dict literal binds no key twice, so the association list and the
    Python dict have the same bindings. *)
Lemma MODELS_keys_NoDup : NoDup (dict_keys MODELS).
Proof.
  unfold dict_keys, MODELS. simpl.
  repeat (constructor; [simpl; intuition discriminate |]).
  constructor.
Qed.

Lemma expected_modality_models_keys_NoDup : NoDup (dict_keys expected_modality_models).
Proof.
  unfold dict_keys, expected_modality_models. simpl.
  repeat (constructor; [simpl; intuition discriminate |]).
  constructor.
Qed.

Lemma MODELS_length : length MODELS = 24%nat.
Proof. reflexivity. Qed.

(** Every entry has [organ_indices] and [limit_fov]; every entry but
    [clin_pt_fdg_tumor] has [url] and [voxel_spacing]. *)
Lemma MODELS_fields (entry : pykey * pyvalue) :
  In entry MODELS ->
  has_field "organ_indices" entry = true /\
  has_field "limit_fov" entry = true /\
  (fst entry <> KStr "clin_pt_fdg_tumor" ->
   has_field "url" entry = true /\ has_field "voxel_spacing" entry = true).
Proof.
  intros Hin.
  assert (Hall : forallb (fun e =>
            has_field "organ_indices" e && has_field "limit_fov" e &&
            (key_eqb (fst e) (KStr "clin_pt_fdg_tumor") ||
             has_field "url" e && has_field "voxel_spacing" e)) MODELS = true)
    by (vm_compute; reflexivity).
  rewrite forallb_forall in Hall. specialize (Hall entry Hin).
  apply andb_prop in Hall. destruct Hall as [Hall Hrest].
  apply andb_prop in Hall. destruct Hall as [Ho Hl].
  split; [exact Ho |]. split; [exact Hl |].
  intros Hother.
  apply orb_prop in Hrest. destruct Hrest as [Hk | Hrest].
  - exfalso. apply Hother.
    destruct (fst entry) as [k | n]; simpl in Hk; try discriminate.
    apply String.eqb_eq in Hk. subst k. reflexivity.
  - apply andb_prop in Hrest. exact Hrest.
Qed.

Lemma MODELS_crop_ok : forallb (crop_ok MODELS) MODELS = true.
Proof. vm_compute. reflexivity. Qed.

(** C4 (code defect).  The entry [clin_pt_fdg_tumor] of [MODELS] has the
    keys [organ_indices] and [limit_fov] and nothing else: it has neither a
    [url] nor a [voxel_spacing], against the header comment of the registry
    and against the claim that every descriptor carries both. *)
Theorem clin_pt_fdg_tumor_lacks_url_and_spacing :
  exists descriptor,
    dict_get MODELS (KStr "clin_pt_fdg_tumor") = Some (PDict descriptor) /\
    dict_keys descriptor = [KStr "organ_indices"; KStr "limit_fov"] /\
    dict_get descriptor (KStr "url") = None /\
    dict_get descriptor (KStr "voxel_spacing") = None.
Proof.
  eexists. split; [vm_compute; reflexivity |].
  repeat split; reflexivity.
Qed.

(** C10.  Every descriptor of [MODELS] whose [limit_fov] is not [None]
    names, as [model_to_crop_from], one of [clin_ct_fast_organs],
    [clin_ct_fast_cardiac], [clin_ct_fast_vertebrae]; that name is a key of
    [MODELS], and the descriptor it refers to has [limit_fov] equal to
    [None]. *)
Theorem limit_fov_depth_one (name : pykey) (descriptor limit_fov : pyvalue) :
  In (name, descriptor) MODELS ->
  field descriptor "limit_fov" = Some limit_fov ->
  limit_fov <> PNone ->
  exists target referenced,
    field limit_fov "model_to_crop_from" = Some (PStr target) /\
    In target ["clin_ct_fast_organs"; "clin_ct_fast_cardiac"; "clin_ct_fast_vertebrae"] /\
    dict_get MODELS (KStr target) = Some referenced /\
    field referenced "limit_fov" = Some PNone.
Proof.
  intros Hin Hfov Hnone.
  pose proof MODELS_crop_ok as Hall.
  rewrite forallb_forall in Hall. specialize (Hall _ Hin).
  unfold crop_ok in Hall. simpl snd in Hall. rewrite Hfov in Hall.
  assert (Hbody :
    match field limit_fov "model_to_crop_from" with
    | Some (PStr target) =>
        existsb (String.eqb target) crop_sources &&
        match dict_get MODELS (KStr target) with
        | Some d' =>
            match field d' "limit_fov" with Some PNone => true | _ => false end
        | None => false
        end
    | _ => false
    end = true).
  { destruct limit_fov; try exact Hall. congruence. }
  clear Hall.
  destruct (field limit_fov "model_to_crop_from") as [[| | | | target | |] |];
    try discriminate.
  apply andb_prop in Hbody. destruct Hbody as [Hsrc Href].
  apply existsb_exists in Hsrc. destruct Hsrc as [src [Hsrc Heq]].
  apply String.eqb_eq in Heq. subst src.
  destruct (dict_get MODELS (KStr target)) as [referenced |] eqn:Hget;
    try discriminate.
  destruct (field referenced "limit_fov") as [[| | | | | |] |] eqn:Hreffov;
    try discriminate.
  exists target, referenced. repeat split; auto.
Qed.

Lemma limit_fov_depth_one_witness :
  exists descriptor,
    In (KStr "clin_ct_liver_segments", descriptor) MODELS /\
    field descriptor "limit_fov" = Some Demo.liver_segments_limit_fov /\
    Demo.liver_segments_limit_fov <> PNone /\
    exists target referenced,
      field Demo.liver_segments_limit_fov "model_to_crop_from" = Some (PStr target) /\
      In target ["clin_ct_fast_organs"; "clin_ct_fast_cardiac"; "clin_ct_fast_vertebrae"] /\
      dict_get MODELS (KStr target) = Some referenced /\
      field referenced "limit_fov" = Some PNone.
Proof.
  exists (snd (nth 17 MODELS (KStr "", PNone))).
  assert (Hin : In (KStr "clin_ct_liver_segments", snd (nth 17 MODELS (KStr "", PNone))) MODELS)
    by (unfold MODELS; simpl; do 17 right; left; reflexivity).
  assert (Hfov : field (snd (nth 17 MODELS (KStr "", PNone))) "limit_fov"
                 = Some Demo.liver_segments_limit_fov) by reflexivity.
  assert (Hne : Demo.liver_segments_limit_fov <> PNone) by discriminate.
  split; [exact Hin | split; [exact Hfov | split; [exact Hne |]]].
  exact (limit_fov_depth_one _ _ _ Hin Hfov Hne).
Defined.

(* ===================================================================== *)
(** ** Model names: the command line, the modality table, the task table  *)
(* ===================================================================== *)

(** C8.  Each of [clin_ct_bones], [clin_ct_vessels], [clin_ct_all],
    [clin_fdg_pt_ct_all] and [clin_pt_fdg_tumor] is among the choices of
    [--model_name], and [expected_modality] answers it with the error
    dictionary, not with a modality descriptor. *)
Theorem expected_modality_rejects_cli_names {H : Host} (name : string) (s : state) :
  In name ["clin_ct_bones"; "clin_ct_vessels"; "clin_ct_all";
           "clin_fdg_pt_ct_all"; "clin_pt_fdg_tumor"] ->
  In name model_name_choices /\
  fst (expected_modality name s)
  = Ok (PDict [(KStr "Error",
                PStr "Requested model is not available. Please check the model name.")]).
Proof.
  intros Hname. simpl in Hname.
  destruct Hname as [<- | [<- | [<- | [<- | [<- | []]]]]];
    (split; [simpl; tauto | reflexivity]).
Qed.

Lemma expected_modality_rejects_cli_names_witness :
  In "clin_ct_vessels" ["clin_ct_bones"; "clin_ct_vessels"; "clin_ct_all";
                        "clin_fdg_pt_ct_all"; "clin_pt_fdg_tumor"] /\
  In "clin_ct_vessels" model_name_choices /\
  fst (expected_modality (H := Demo.host 0) "clin_ct_vessels" (Demo.start 0))
  = Ok (PDict [(KStr "Error",
                PStr "Requested model is not available. Please check the model name.")]).
Proof.
  assert (Hin : In "clin_ct_vessels" ["clin_ct_bones"; "clin_ct_vessels"; "clin_ct_all";
                                      "clin_fdg_pt_ct_all"; "clin_pt_fdg_tumor"])
    by (right; left; reflexivity).
  split; [exact Hin |].
  exact (expected_modality_rejects_cli_names (H := Demo.host 0)
           "clin_ct_vessels" (Demo.start 0) Hin).
Defined.

(** The other seven choices of the command line do get a descriptor. *)
Lemma expected_modality_accepts_other_cli_names {H : Host} (name : string) (s : state) :
  In name ["clin_ct_ribs"; "clin_ct_vertebrae"; "clin_ct_muscles"; "clin_ct_lungs";
           "clin_ct_fat"; "clin_ct_organs"; "preclin_mr_all"] ->
  exists d, fst (expected_modality name s) = Ok (PDict d) /\
            dict_get d (KStr "Model name") = Some (PStr name) /\
            dict_get d (KStr "Error") = None.
Proof.
  intros Hname. simpl in Hname.
  destruct Hname as [<- | [<- | [<- | [<- | [<- | [<- | [<- | []]]]]]]];
    (eexists; split; [reflexivity | split; reflexivity]).
Qed.

(** Splits on the comparisons of [name] with string literals, one by one. *)
Ltac split_on_name name :=
  repeat match goal with
         | |- context [String.eqb name ?c] => destruct (String.eqb_spec name c)
         end.

Lemma task_number_of_choice (name : string) :
  In name model_name_choices ->
  exists n, map_model_name_to_task_number name = Ok n /\ 201 <= n <= 212.
Proof.
  intros Hname. simpl in Hname.
  repeat (destruct Hname as [<- | Hname];
          [eexists; split; [reflexivity | lia] |]).
  contradiction.
Qed.

Lemma task_number_raises (name : string) :
  ~ In name model_name_choices ->
  map_model_name_to_task_number name
  = Raise (Exception ("Error: The model name '" ++ name ++ "' is not valid.")%string).
Proof.
  intros Hname. unfold map_model_name_to_task_number.
  split_on_name name; try reflexivity;
    exfalso; apply Hname; subst; simpl; tauto.
Qed.

(** C9.  [map_model_name_to_task_number] sends the twelve names of the
    command line, in order, to 201, ..., 212; it is injective on them; and
    it raises exactly on the strings that are not among the twelve. *)
Theorem map_model_name_to_task_number_injective_raises_iff :
  map map_model_name_to_task_number model_name_choices
  = map Ok [201; 202; 203; 204; 205; 206; 207; 208; 209; 210; 211; 212] /\
  (forall a b,
      In a model_name_choices -> In b model_name_choices ->
      map_model_name_to_task_number a = map_model_name_to_task_number b -> a = b) /\
  (forall name,
      (exists e, map_model_name_to_task_number name = Raise e) <->
      ~ In name model_name_choices).
Proof.
  split; [reflexivity |]. split.
  - intros a b Ha Hb. simpl in Ha, Hb.
    repeat (destruct Ha as [<- | Ha]; [
      repeat (destruct Hb as [<- | Hb];
              [intros Heq; first [reflexivity | vm_compute in Heq; discriminate] |]);
      contradiction |]).
    contradiction.
  - intros name. split.
    + intros [e He] Hin.
      destruct (task_number_of_choice name Hin) as [n [Hn _]]. congruence.
    + intros Hname. eexists. apply task_number_raises. exact Hname.
Qed.

(* ===================================================================== *)
(** ** predict and run_prediction                                         *)
(* ===================================================================== *)

Section predict_lemmas.
Context {H : Host}.

(** One call of [predict] with a valid model name, in full. *)
Lemma predict_valid (model_name input_dir output_dir : string) (task_number : Z) (s : state) :
  map_model_name_to_task_number model_name = Ok task_number ->
  let env := env_set (st_environ s) "RESULTS_FOLDER" NNUNET_RESULTS_FOLDER in
  let cmd := nnUNet_predict_command input_dir output_dir task_number in
  predict.predict model_name input_dir output_dir s
  = (Ok PNone,
     mkState (snd (shell cmd env (st_world s))) env (st_MODELS s)
             (st_trace s ++ [SubprocessRun cmd (fst (shell cmd env (st_world s)))])).
Proof.
  intros Hvalid env cmd.
  unfold predict.predict, bind, lift, setenv, subprocess_run, ret.
  rewrite Hvalid. simpl. fold env. fold cmd.
  destruct (shell cmd env (st_world s)); reflexivity.
Qed.

Lemma predict_invalid (model_name input_dir output_dir : string) (e : exn) (s : state) :
  map_model_name_to_task_number model_name = Raise e ->
  predict.predict model_name input_dir output_dir s = (Raise e, s).
Proof.
  intros Hinvalid. unfold predict.predict, bind, lift. rewrite Hinvalid. reflexivity.
Qed.

Lemma env_set_idem (env : list (string * string)) (k v : string) :
  env_set (env_set env k v) k v = env_set env k v.
Proof.
  induction env as [| [k' v'] env IH]; simpl.
  - rewrite String.eqb_refl. reflexivity.
  - destruct (String.eqb k' k) eqn:Hk; simpl; rewrite Hk; [reflexivity |].
    rewrite IH. reflexivity.
Qed.

(** The loop of [run_prediction] over the zipped lists, for a valid name:
    it ends normally; what it appends to the trace and what it leaves of
    the world are those of running the commands of the pairs one after the
    other, in the order of the pairs. *)
Lemma prediction_loop (model_name : string) (task_number : Z)
      (pairs : list (string * string)) (s : state) :
  map_model_name_to_task_number model_name = Ok task_number ->
  let body := fun p : string * string =>
                bind (predict.predict model_name (fst p) (snd p)) (fun _ => ret tt) in
  let cmds := map (fun p => nnUNet_predict_command (fst p) (snd p) task_number) pairs in
  let env := env_set (st_environ s) "RESULTS_FOLDER" NNUNET_RESULTS_FOLDER in
  fst (for_each pairs body s) = Ok tt /\
  st_trace (snd (for_each pairs body s))
  = (st_trace s ++ fst (engine_runs cmds env (st_world s)))%list /\
  st_world (snd (for_each pairs body s)) = snd (engine_runs cmds env (st_world s)).
Proof.
  intros Hvalid body. revert s.
  induction pairs as [| p pairs IH]; intros s; cbv zeta.
  - simpl. rewrite app_nil_r. auto.
  - pose proof (predict_valid model_name (fst p) (snd p) task_number s Hvalid) as Hstep.
    cbv zeta in Hstep.
    assert (Estep : for_each (p :: pairs) body s
                    = for_each pairs body (snd (predict.predict model_name (fst p) (snd p) s))).
    { simpl. unfold bind at 1. unfold body at 1. unfold bind at 1.
      rewrite Hstep. reflexivity. }
    rewrite Estep. clear Estep.
    specialize (IH (snd (predict.predict model_name (fst p) (snd p) s))).
    cbv zeta in IH. rewrite Hstep in IH |- *.
    cbn [snd fst st_environ st_world st_trace] in IH |- *.
    rewrite env_set_idem in IH.
    destruct IH as [Hres [Htr Hw]].
    split; [exact Hres |]. split.
    + rewrite Htr. simpl. rewrite <- app_assoc. reflexivity.
    + rewrite Hw. reflexivity.
Qed.

(** [engine_runs] makes one event per command, in order. *)
Lemma engine_runs_events (cmds : list string) (env : list (string * string)) (w : world) :
  Forall2 (fun e cmd => exists rc, e = SubprocessRun cmd rc)
          (fst (engine_runs cmds env w)) cmds.
Proof.
  revert w. induction cmds as [| cmd cmds IH]; intros w; simpl.
  - constructor.
  - constructor; [eexists; reflexivity | apply IH].
Qed.

End predict_lemmas.

(** C2, as the claim has it, fails: an engine that exits with 1 and an
    engine that exits with 0 give the caller of [predict] the same [None]. *)
Lemma exit_code_not_propagated :
  engine_returncode (H := Demo.host 1) "in" "out" 202 (Demo.start 1) = 1 /\
  fst (predict.predict (H := Demo.host 1) "clin_ct_ribs" "in" "out" (Demo.start 1)) = Ok PNone /\
  fst (predict.predict (H := Demo.host 0) "clin_ct_ribs" "in" "out" (Demo.start 0)) = Ok PNone /\
  ~ @exit_code_propagated (Demo.host 1).
Proof.
  repeat split.
  intros Hprop.
  destruct (Hprop "clin_ct_ribs" "in" "out" 202 (Demo.start 1) eq_refl) as [Hret | [cmd Hexn]];
    vm_compute; try discriminate.
Qed.

(** C2, amended.  For a valid model name, [predict] runs the engine once
    and returns [None] whatever return code the engine gives, and
    [run_prediction] returns [None] as well: the code is recorded nowhere
    the caller can see. *)
Theorem predict_returns_None_whatever_exit_code {H : Host}
        (model_name : string) (task_number : Z) :
  map_model_name_to_task_number model_name = Ok task_number ->
  (forall input_dir output_dir s,
      fst (predict.predict model_name input_dir output_dir s) = Ok PNone /\
      st_trace (snd (predict.predict model_name input_dir output_dir s))
      = (st_trace s ++
         [SubprocessRun (nnUNet_predict_command input_dir output_dir task_number)
                        (engine_returncode input_dir output_dir task_number s)])%list) /\
  (forall input_dirs output_dirs s,
      fst (run_prediction model_name input_dirs output_dirs s) = Ok PNone).
Proof.
  intros Hvalid. split.
  - intros input_dir output_dir s.
    rewrite (predict_valid _ _ _ _ s Hvalid). split; reflexivity.
  - intros input_dirs output_dirs s. unfold run_prediction.
    destruct (prediction_loop model_name task_number
                (combine input_dirs output_dirs) s Hvalid) as [Hres _].
    unfold bind at 1.
    destruct (for_each _ _ s) as [[[] | e] s1]; simpl in Hres; [reflexivity | discriminate].
Qed.

Lemma predict_returns_None_whatever_exit_code_witness :
  map_model_name_to_task_number "clin_ct_ribs" = Ok 202 /\
  (forall input_dir output_dir s,
      fst (predict.predict (H := Demo.host 1) "clin_ct_ribs" input_dir output_dir s) = Ok PNone /\
      st_trace (snd (predict.predict "clin_ct_ribs" input_dir output_dir s))
      = (st_trace s ++
         [SubprocessRun (nnUNet_predict_command input_dir output_dir 202)
                        (engine_returncode input_dir output_dir 202 s)])%list) /\
  (forall input_dirs output_dirs s,
      fst (run_prediction (H := Demo.host 1) "clin_ct_ribs" input_dirs output_dirs s) = Ok PNone).
Proof.
  split; [reflexivity |].
  exact (predict_returns_None_whatever_exit_code (H := Demo.host 1) "clin_ct_ribs" 202 eq_refl).
Defined.

(** C3, as the claim has it, fails for [clin_ct_ribs]: the registry
    declares [3d_fullres_big_patch], the command line says [3d_fullres]. *)
Lemma ribs_command_ignores_registry_configuration :
  spec_command MODELS "clin_ct_ribs" "in" "out"
  = Some "nnUNet_predict -i in -o out -t 202 -m 3d_fullres_big_patch -f all" /\
  commands (st_trace (snd (predict.predict (H := Demo.host 0)
                             "clin_ct_ribs" "in" "out" (Demo.start 0))))
  = ["nnUNet_predict -i in -o out -t 202 -m 3d_fullres -f all"] /\
  ~ @command_follows_registry (Demo.host 0).
Proof.
  repeat split.
  intros Hfollows.
  specialize (Hfollows "clin_ct_ribs" "in" "out" (Demo.start 0) _ eq_refl).
  vm_compute in Hfollows. discriminate.
Qed.

(** C3, amended.  For a valid model name the one command [predict] runs is
    [nnUNet_predict -i <input_dir> -o <output_dir> -t <task number> -m
    3d_fullres -f all]: input directory, output directory and the task
    number of the model name, with the fixed configuration [3d_fullres],
    whatever the registry holds. *)
Theorem predict_command_line {H : Host}
        (model_name input_dir output_dir : string) (task_number : Z)
        (registry : dict) (s : state) :
  map_model_name_to_task_number model_name = Ok task_number ->
  commands (st_trace (snd (predict.predict model_name input_dir output_dir
                             (with_MODELS registry s))))
  = (commands (st_trace s) ++
     [("nnUNet_predict -i " ++ input_dir ++ " -o " ++ output_dir ++
       " -t " ++ str_int task_number ++ " -m 3d_fullres -f all")%string])%list.
Proof.
  intros Hvalid.
  rewrite (predict_valid _ _ _ _ _ Hvalid). simpl.
  rewrite commands_app. reflexivity.
Qed.

Lemma predict_command_line_witness :
  map_model_name_to_task_number "clin_ct_ribs" = Ok 202 /\
  commands (st_trace (snd (predict.predict (H := Demo.host 0) "clin_ct_ribs" "in" "out"
                             (with_MODELS MODELS (Demo.start 0)))))
  = (commands (st_trace (Demo.start 0)) ++
     [("nnUNet_predict -i " ++ "in" ++ " -o " ++ "out" ++
       " -t " ++ str_int 202 ++ " -m 3d_fullres -f all")%string])%list.
Proof.
  split; [reflexivity |].
  exact (predict_command_line (H := Demo.host 0) "clin_ct_ribs" "in" "out" 202
           MODELS (Demo.start 0) eq_refl).
Defined.

(** When the loop ends normally, the body was started for every element. *)
Lemma started_all_when_ok {H : Host} {A : Type}
      (l : list A) (body : A -> M unit) (s : state) :
  fst (for_each l body s) = Ok tt -> started l body s = l.
Proof.
  revert s. induction l as [| x l IH]; intros s; simpl; [reflexivity |].
  unfold bind. destruct (body x s) as [[[] | e] s1]; simpl.
  - intros Hok. rewrite (IH s1 Hok). reflexivity.
  - discriminate.
Qed.

(** With a valid model name [predict] is called for every pair. *)
Lemma predict_calls_valid {H : Host} (model_name : string) (task_number : Z)
      (input_dirs output_dirs : list string) (s : state) :
  map_model_name_to_task_number model_name = Ok task_number ->
  predict_calls model_name input_dirs output_dirs s = combine input_dirs output_dirs.
Proof.
  intros Hvalid. unfold predict_calls. apply started_all_when_ok.
  apply (prediction_loop model_name task_number _ s Hvalid).
Qed.

(** C6, as the claim has it, fails: it speaks of every pair of lists and
    leaves the model name free.  With the name ["bogus"] and two pairs the
    first call of [predict] raises, [run_prediction] lets the exception
    through with the state untouched, and [predict] is never called for
    the second pair. *)
Lemma run_prediction_skips_pairs_after_raise :
  run_prediction (H := Demo.host 0) "bogus" ["a"; "b"] ["x"; "y"] (Demo.start 0)
  = (Raise (Exception "Error: The model name 'bogus' is not valid."), Demo.start 0) /\
  predict_calls (H := Demo.host 0) "bogus" ["a"; "b"] ["x"; "y"] (Demo.start 0)
  = [("a", "x")] /\
  combine ["a"; "b"] ["x"; "y"] = [("a", "x"); ("b", "y")] /\
  ~ @predict_once_per_pair (Demo.host 0).
Proof.
  split; [reflexivity |]. split; [reflexivity |]. split; [reflexivity |].
  intros Hclaim.
  specialize (Hclaim "bogus" ["a"; "b"] ["x"; "y"] (Demo.start 0)).
  vm_compute in Hclaim. discriminate.
Qed.

(** C6, amended.  For a valid model name, [run_prediction] ends normally, having
    run one [nnUNet_predict] command per pair of [zip(input_dirs,
    output_dirs)], in list order and one at a time: each command starts in
    the world the one before has left, the trace gains one subprocess run
    per pair followed by the spinner's closing message, and the world at
    the end is the one the last command leaves. *)
Theorem run_prediction_sequential {H : Host}
        (model_name : string) (task_number : Z)
        (input_dirs output_dirs : list string) (s : state) :
  map_model_name_to_task_number model_name = Ok task_number ->
  let pairs := combine input_dirs output_dirs in
  let cmds :=
    map (fun p => ("nnUNet_predict -i " ++ fst p ++ " -o " ++ snd p ++
                   " -t " ++ str_int task_number ++ " -m 3d_fullres -f all")%string) pairs in
  let env := env_set (st_environ s) "RESULTS_FOLDER" NNUNET_RESULTS_FOLDER in
  let runs := engine_runs cmds env (st_world s) in
  fst (run_prediction model_name input_dirs output_dirs s) = Ok PNone /\
  st_trace (snd (run_prediction model_name input_dirs output_dirs s))
  = (st_trace s ++ fst runs ++ [SpinnerSucceed "Prediction complete"])%list /\
  st_world (snd (run_prediction model_name input_dirs output_dirs s)) = snd runs /\
  Forall2 (fun e cmd => exists rc, e = SubprocessRun cmd rc) (fst runs) cmds /\
  length cmds = Nat.min (length input_dirs) (length output_dirs).
Proof.
  intros Hvalid pairs cmds env runs. unfold run_prediction.
  destruct (prediction_loop model_name task_number pairs s Hvalid) as [Hres [Htr Hw]].
  fold pairs.
  set (loop := for_each pairs _) in *.
  unfold bind, emit, ret.
  destruct (loop s) as [[[] | e] s1]; simpl in Hres, Htr, Hw; [| discriminate].
  simpl. rewrite Htr, Hw, app_assoc.
  repeat apply conj; try reflexivity.
  - apply engine_runs_events.
  - unfold cmds, pairs. rewrite length_map. apply length_combine.
Qed.

Lemma run_prediction_sequential_witness :
  map_model_name_to_task_number "clin_ct_ribs" = Ok 202 /\
  let s := Demo.start 1 in
  let pairs := combine ["a"; "b"; "c"] ["x"; "y"] in
  let cmds :=
    map (fun p => ("nnUNet_predict -i " ++ fst p ++ " -o " ++ snd p ++
                   " -t " ++ str_int 202 ++ " -m 3d_fullres -f all")%string) pairs in
  let env := env_set (st_environ s) "RESULTS_FOLDER" (NNUNET_RESULTS_FOLDER (Host := Demo.host 1)) in
  let runs := engine_runs cmds env (st_world s) in
  fst (run_prediction "clin_ct_ribs" ["a"; "b"; "c"] ["x"; "y"] s) = Ok PNone /\
  st_trace (snd (run_prediction "clin_ct_ribs" ["a"; "b"; "c"] ["x"; "y"] s))
  = (st_trace s ++ fst runs ++ [SpinnerSucceed "Prediction complete"])%list /\
  st_world (snd (run_prediction "clin_ct_ribs" ["a"; "b"; "c"] ["x"; "y"] s)) = snd runs /\
  Forall2 (fun e cmd => exists rc, e = SubprocessRun cmd rc) (fst runs) cmds /\
  length cmds = Nat.min (length ["a"; "b"; "c"]) (length ["x"; "y"]).
Proof.
  split; [reflexivity |].
  exact (run_prediction_sequential (H := Demo.host 1) "clin_ct_ribs" 202
           ["a"; "b"; "c"] ["x"; "y"] (Demo.start 1) eq_refl).
Defined.

(** With a name outside the task table the first call of [predict] raises
    and the loop stops there: nothing is run. *)
Lemma run_prediction_invalid_name {H : Host}
      (model_name : string) (input_dir output_dir : string)
      (input_dirs output_dirs : list string) (s : state) :
  ~ In model_name model_name_choices ->
  run_prediction model_name (input_dir :: input_dirs) (output_dir :: output_dirs) s
  = (Raise (Exception ("Error: The model name '" ++ model_name ++ "' is not valid.")%string), s).
Proof.
  intros Hname. unfold run_prediction. simpl.
  unfold bind. rewrite (predict_invalid _ _ _ _ s (task_number_raises _ Hname)).
  reflexivity.
Qed.

(* ===================================================================== *)
(** ** main                                                               *)
(* ===================================================================== *)

Section main_lemmas.
Context {H : Host}.

(** [main] is its preparation followed, when that ends normally, by the
    section under [# RUN PREDICTION]. *)
Lemma main_unfold (main_directory model_name : string) (s : state) :
  main main_directory model_name s
  = match main_prepare main_directory model_name s with
    | (Ok l, s1) => main_run_prediction l s1
    | (Raise e, s1) => (Raise e, s1)
    end.
Proof. reflexivity. Qed.

(** The section under [# RUN PREDICTION] prints three lines, logs three
    lines, and does nothing else. *)
Lemma main_run_prediction_effect (l : locals) (s : state) :
  main_run_prediction l s
  = (Ok tt,
     mkState (st_world s) (st_environ s) (st_MODELS s)
             (st_trace s ++
              [Print ""; Print " RUNNING PREDICTION:"; Print "";
               Log INFO " "; Log INFO " RUNNING PREDICTION:"; Log INFO " "])).
Proof.
  unfold main_run_prediction, bind, print, logging_info, emit. simpl.
  repeat rewrite <- app_assoc. reflexivity.
Qed.

Lemma main_prepare_appends_no_subprocess (main_directory model_name : string) :
  appends (fun e => negb (is_subprocess e)) (main_prepare main_directory model_name).
Proof. unfold main_prepare, print, logging_info. effects. Qed.

Lemma main_prepare_oblivious (main_directory model_name : string) :
  oblivious (main_prepare main_directory model_name).
Proof. unfold main_prepare, print, logging_info. effects. Qed.

Lemma main_run_prediction_oblivious (l : locals) : oblivious (main_run_prediction l).
Proof. unfold main_run_prediction, print, logging_info. effects. Qed.

Lemma main_oblivious (main_directory model_name : string) :
  oblivious (main main_directory model_name).
Proof.
  unfold main. apply oblivious_bind.
  - apply main_prepare_oblivious.
  - apply main_run_prediction_oblivious.
Qed.

Lemma predict_oblivious (model_name input_dir output_dir : string) :
  oblivious (predict.predict model_name input_dir output_dir).
Proof. unfold predict.predict. effects. Qed.

Lemma run_prediction_oblivious (model_name : string) (input_dirs output_dirs : list string) :
  oblivious (run_prediction model_name input_dirs output_dirs).
Proof.
  unfold run_prediction. apply oblivious_bind; [| intros; effects].
  apply oblivious_for_each. intros p.
  apply oblivious_bind; [apply predict_oblivious | intros; apply oblivious_ret].
Qed.

Lemma expected_modality_oblivious (model_name : string) :
  oblivious (expected_modality model_name).
Proof.
  unfold expected_modality, logging_error. cbv zeta.
  destruct (dict_get expected_modality_models (KStr model_name)); effects.
Qed.

End main_lemmas.

(** C1 (code defect).  Whatever the main directory, the model name and the
    surroundings, [main] hands no command to [subprocess.run]: it announces
    the prediction and returns; [run_prediction] is never called. *)
Theorem main_issues_no_subprocess {H : Host}
        (main_directory model_name : string) (s : state) :
  exists tr,
    st_trace (snd (main main_directory model_name s)) = (st_trace s ++ tr)%list /\
    commands tr = [].
Proof.
  rewrite main_unfold.
  destruct (main_prepare_appends_no_subprocess main_directory model_name s)
    as [tr [Htr Hall]].
  destruct (main_prepare main_directory model_name s) as [[l | e] s1]; simpl in Htr.
  - rewrite main_run_prediction_effect. simpl. rewrite Htr.
    eexists. rewrite <- app_assoc. split; [reflexivity |].
    rewrite commands_app, (no_subprocess_no_commands tr Hall). reflexivity.
  - exists tr. split; [exact Htr | apply no_subprocess_no_commands; exact Hall].
Qed.

(** The run behind C1: two subject folders are prepared for
    [clin_ct_ribs], [main] ends normally, and no engine was started. *)
Lemma main_demo_run :
  let run := main (H := Demo.host 0) "/data" "clin_ct_ribs" (Demo.start 0) in
  fst run = Ok tt /\
  In "input_validation.make_nnunet_compatible /data/moosez-run/S1/in" (st_world (snd run)) /\
  In "input_validation.make_nnunet_compatible /data/moosez-run/S2/in" (st_world (snd run)) /\
  commands (st_trace (snd run)) = [] /\
  commands (st_trace (snd (run_prediction (H := Demo.host 0) "clin_ct_ribs"
                             ["/data/moosez-run/S1/in"; "/data/moosez-run/S2/in"]
                             ["/data/moosez-run/S1/out"; "/data/moosez-run/S2/out"]
                             (snd run))))
  = ["nnUNet_predict -i /data/moosez-run/S1/in -o /data/moosez-run/S1/out -t 202 -m 3d_fullres -f all";
     "nnUNet_predict -i /data/moosez-run/S2/in -o /data/moosez-run/S2/out -t 202 -m 3d_fullres -f all"].
Proof.
  vm_compute. repeat split; auto 20.
Qed.

(** C7.  In every run of [main], what follows the preparation of the data
    leaves the world (the subject folders with it) and [os.environ] as the
    preparation left them, and adds nothing to the trace but prints and log
    lines: nothing is moved or copied back. *)
Theorem main_final_phase_frame {H : Host}
        (main_directory model_name : string) (s : state) :
  let prepared := snd (main_prepare main_directory model_name s) in
  let final := snd (main main_directory model_name s) in
  st_world final = st_world prepared /\
  st_environ final = st_environ prepared /\
  exists tr,
    st_trace final = (st_trace prepared ++ tr)%list /\
    forallb print_or_log tr = true.
Proof.
  cbv zeta. rewrite main_unfold.
  destruct (main_prepare main_directory model_name s) as [[l | e] s1].
  - rewrite main_run_prediction_effect. simpl.
    repeat split. eexists. split; reflexivity.
  - simpl. repeat split. exists []. rewrite app_nil_r. auto.
Qed.

(** The registry with the crop of [clin_ct_liver_segments] removed differs
    from [MODELS], and only in a [limit_fov] value. *)
Lemma MODELS_without_liver_crop_differs :
  Demo.MODELS_without_liver_crop <> MODELS /\
  erase_limit_fov Demo.MODELS_without_liver_crop = erase_limit_fov MODELS.
Proof.
  split; [| vm_compute; reflexivity].
  intros Heq.
  assert (Hget : dict_get Demo.MODELS_without_liver_crop (KStr "clin_ct_liver_segments")
                 = dict_get MODELS (KStr "clin_ct_liver_segments"))
    by (rewrite Heq; reflexivity).
  vm_compute in Hget. discriminate.
Qed.

(** C5.  Two runs whose states differ at most in the [limit_fov] values of
    the registry give, for [main], [predict], [run_prediction],
    [map_model_name_to_task_number] and [expected_modality], the same
    result and final states that again differ at most there: same world,
    same environment, same trace, hence the same subprocess runs. *)
Theorem limit_fov_noninterference {H : Host} (s1 s2 : state) :
  agree_up_to_limit_fov s1 s2 ->
  (forall main_directory model_name,
      fst (main main_directory model_name s1) = fst (main main_directory model_name s2) /\
      agree_up_to_limit_fov (snd (main main_directory model_name s1))
                            (snd (main main_directory model_name s2))) /\
  (forall model_name input_dir output_dir,
      fst (predict.predict model_name input_dir output_dir s1)
      = fst (predict.predict model_name input_dir output_dir s2) /\
      agree_up_to_limit_fov (snd (predict.predict model_name input_dir output_dir s1))
                            (snd (predict.predict model_name input_dir output_dir s2))) /\
  (forall model_name input_dirs output_dirs,
      fst (run_prediction model_name input_dirs output_dirs s1)
      = fst (run_prediction model_name input_dirs output_dirs s2) /\
      agree_up_to_limit_fov (snd (run_prediction model_name input_dirs output_dirs s1))
                            (snd (run_prediction model_name input_dirs output_dirs s2))) /\
  (forall model_name,
      fst (lift (map_model_name_to_task_number model_name) s1)
      = fst (lift (map_model_name_to_task_number model_name) s2) /\
      agree_up_to_limit_fov (snd (lift (map_model_name_to_task_number model_name) s1))
                            (snd (lift (map_model_name_to_task_number model_name) s2))) /\
  (forall model_name,
      fst (expected_modality model_name s1) = fst (expected_modality model_name s2) /\
      agree_up_to_limit_fov (snd (expected_modality model_name s1))
                            (snd (expected_modality model_name s2))).
Proof.
  intros Hagree. repeat apply conj; intros.
  - apply oblivious_same_outcome; [apply main_oblivious | exact Hagree].
  - apply oblivious_same_outcome; [apply predict_oblivious | exact Hagree].
  - apply oblivious_same_outcome; [apply run_prediction_oblivious | exact Hagree].
  - apply oblivious_same_outcome; [apply oblivious_lift | exact Hagree].
  - apply oblivious_same_outcome; [apply expected_modality_oblivious | exact Hagree].
Qed.

Lemma limit_fov_noninterference_witness :
  agree_up_to_limit_fov (Demo.start 0) (Demo.start_without_liver_crop 0) /\
  st_MODELS (Demo.start 0) <> st_MODELS (Demo.start_without_liver_crop 0) /\
  fst (run_prediction (H := Demo.host 0) "clin_ct_ribs" ["a"] ["x"] (Demo.start 0))
  = fst (run_prediction "clin_ct_ribs" ["a"] ["x"] (Demo.start_without_liver_crop 0)) /\
  agree_up_to_limit_fov
    (snd (run_prediction (H := Demo.host 0) "clin_ct_ribs" ["a"] ["x"] (Demo.start 0)))
    (snd (run_prediction "clin_ct_ribs" ["a"] ["x"] (Demo.start_without_liver_crop 0))).
Proof.
  assert (Hagree : agree_up_to_limit_fov (Demo.start 0) (Demo.start_without_liver_crop 0)).
  { unfold agree_up_to_limit_fov. simpl.
    split; [reflexivity |]. split; [reflexivity |]. split; [reflexivity |].
    symmetry. apply MODELS_without_liver_crop_differs. }
  split; [exact Hagree |].
  split; [simpl; intros Heq; symmetry in Heq;
          exact (proj1 MODELS_without_liver_crop_differs Heq) |].
  exact (proj1 (proj2 (proj2 (limit_fov_noninterference (H := Demo.host 0)
                                (Demo.start 0) (Demo.start_without_liver_crop 0) Hagree)))
           "clin_ct_ribs" ["a"] ["x"]).
Defined.

(* ===================================================================== *)
(** ** Further properties: predict and run_prediction                     *)
(* ===================================================================== *)

Lemma not_a_choice_bogus : ~ In "bogus" model_name_choices.
Proof.
  simpl. intros Hin.
  repeat (destruct Hin as [Hin | Hin]; [discriminate |]). exact Hin.
Qed.

Lemma env_get_set_same (env : list (string * string)) (k v : string) :
  env_get (env_set env k v) k = Some v.
Proof.
  induction env as [| [k' v'] env IH]; simpl.
  - rewrite String.eqb_refl. reflexivity.
  - destruct (String.eqb k' k) eqn:Hk; simpl; rewrite Hk; [reflexivity | exact IH].
Qed.

Lemma env_get_set_other (env : list (string * string)) (k k' v : string) :
  k' <> k -> env_get (env_set env k v) k' = env_get env k'.
Proof.
  intros Hne. induction env as [| [k0 v0] env IH]; simpl.
  - destruct (String.eqb_spec k k'); [congruence | reflexivity].
  - destruct (String.eqb_spec k0 k) as [-> | Hk0]; simpl.
    + destruct (String.eqb_spec k k'); [congruence | reflexivity].
    + rewrite IH. reflexivity.
Qed.

Lemma env_set_keys (env : list (string * string)) (k v : string) :
  env_get env k <> None -> map fst (env_set env k v) = map fst env.
Proof.
  induction env as [| [k' v'] env IH]; simpl; [congruence |].
  destruct (String.eqb k' k); simpl; [reflexivity |].
  intros Hget. rewrite IH; auto.
Qed.

(** X1.  With a model name outside the task table, [predict] raises
    [Exception("Error: The model name '<name>' is not valid.")] before it
    touches [os.environ] or starts a process: the state is the one it
    found. *)
Theorem predict_invalid_name_has_no_effect {H : Host}
        (model_name input_dir output_dir : string) (s : state) :
  ~ In model_name model_name_choices ->
  predict.predict model_name input_dir output_dir s
  = (Raise (Exception ("Error: The model name '" ++ model_name ++ "' is not valid.")%string), s).
Proof.
  intros Hname. apply predict_invalid. apply task_number_raises. exact Hname.
Qed.

Lemma predict_invalid_name_has_no_effect_witness :
  ~ In "bogus" model_name_choices /\
  predict.predict (H := Demo.host 0) "bogus" "in" "out" (Demo.start 0)
  = (Raise (Exception ("Error: The model name '" ++ "bogus" ++ "' is not valid.")%string),
     Demo.start 0).
Proof.
  split; [exact not_a_choice_bogus |].
  exact (predict_invalid_name_has_no_effect (H := Demo.host 0)
           "bogus" "in" "out" (Demo.start 0) not_a_choice_bogus).
Defined.

(** X2.  With a valid model name, [predict] leaves [os.environ] with
    [RESULTS_FOLDER] set to [constants.NNUNET_RESULTS_FOLDER] and every
    other variable as it was, and the engine has run under that
    environment: the world and the recorded return code are those the
    shell gives for the command in the updated environment. *)
Theorem predict_sets_results_folder {H : Host}
        (model_name input_dir output_dir : string) (task_number : Z) (s : state) :
  map_model_name_to_task_number model_name = Ok task_number ->
  let s' := snd (predict.predict model_name input_dir output_dir s) in
  let cmd := ("nnUNet_predict -i " ++ input_dir ++ " -o " ++ output_dir ++
              " -t " ++ str_int task_number ++ " -m 3d_fullres -f all")%string in
  env_get (st_environ s') "RESULTS_FOLDER" = Some NNUNET_RESULTS_FOLDER /\
  (forall k, k <> "RESULTS_FOLDER" -> env_get (st_environ s') k = env_get (st_environ s) k) /\
  st_world s' = snd (shell cmd (st_environ s') (st_world s)) /\
  st_trace s'
  = (st_trace s ++ [SubprocessRun cmd (fst (shell cmd (st_environ s') (st_world s)))])%list.
Proof.
  intros Hvalid. cbv zeta.
  rewrite (predict_valid _ _ _ _ s Hvalid). cbn [snd st_environ st_world st_trace].
  split; [apply env_get_set_same |].
  split; [intros k Hk; apply env_get_set_other; exact Hk |].
  split; reflexivity.
Qed.

Lemma predict_sets_results_folder_witness :
  map_model_name_to_task_number "clin_ct_lungs" = Ok 205 /\
  let s := Demo.start 1 in
  let s' := snd (predict.predict (H := Demo.host 1) "clin_ct_lungs" "in" "out" s) in
  let cmd := ("nnUNet_predict -i " ++ "in" ++ " -o " ++ "out" ++
              " -t " ++ str_int 205 ++ " -m 3d_fullres -f all")%string in
  env_get (st_environ s') "RESULTS_FOLDER" = Some (NNUNET_RESULTS_FOLDER (Host := Demo.host 1)) /\
  (forall k, k <> "RESULTS_FOLDER" -> env_get (st_environ s') k = env_get (st_environ s) k) /\
  st_world s' = snd (shell cmd (st_environ s') (st_world s)) /\
  st_trace s'
  = (st_trace s ++ [SubprocessRun cmd (fst (shell cmd (st_environ s') (st_world s)))])%list.
Proof.
  split; [reflexivity |].
  exact (predict_sets_results_folder (H := Demo.host 1) "clin_ct_lungs" "in" "out" 205
           (Demo.start 1) eq_refl).
Defined.

Lemma combine_firstn_min {A B : Type} (l : list A) (l' : list B) :
  combine (firstn (Nat.min (length l) (length l')) l)
          (firstn (Nat.min (length l) (length l')) l')
  = combine l l'.
Proof.
  revert l'. induction l as [| a l IH]; intros [| b l']; simpl; try reflexivity.
  rewrite IH. reflexivity.
Qed.

(** X3.  [run_prediction] pairs the directories with [zip]: entries of the
    longer list beyond the length of the shorter one are ignored, whatever
    the model name. *)
Theorem run_prediction_ignores_surplus {H : Host}
        (model_name : string) (input_dirs output_dirs : list string) (s : state) :
  let n := Nat.min (length input_dirs) (length output_dirs) in
  run_prediction model_name input_dirs output_dirs s
  = run_prediction model_name (firstn n input_dirs) (firstn n output_dirs) s.
Proof.
  cbv zeta. unfold run_prediction. rewrite combine_firstn_min. reflexivity.
Qed.

(** X4.  With nothing to pair (one of the lists is empty), [run_prediction]
    returns [None] for every model name, valid or not: no task number is
    looked up, [os.environ] and the world stay as they were, and only the
    spinner's closing message is emitted. *)
Theorem run_prediction_empty_batch {H : Host}
        (model_name : string) (input_dirs output_dirs : list string) (s : state) :
  input_dirs = [] \/ output_dirs = [] ->
  run_prediction model_name input_dirs output_dirs s
  = (Ok PNone,
     mkState (st_world s) (st_environ s) (st_MODELS s)
             (st_trace s ++ [SpinnerSucceed "Prediction complete"])).
Proof.
  intros [-> | ->]; unfold run_prediction.
  - reflexivity.
  - rewrite combine_nil. reflexivity.
Qed.

Lemma run_prediction_empty_batch_witness :
  (([] : list string) = [] \/ ["x"; "y"] = []) /\
  run_prediction (H := Demo.host 0) "bogus" [] ["x"; "y"] (Demo.start 0)
  = (Ok PNone,
     mkState (st_world (Demo.start 0)) (st_environ (Demo.start 0)) (st_MODELS (Demo.start 0))
             (st_trace (Demo.start 0) ++ [SpinnerSucceed "Prediction complete"])).
Proof.
  split; [left; reflexivity |].
  exact (run_prediction_empty_batch (H := Demo.host 0) "bogus" [] ["x"; "y"] (Demo.start 0)
           (or_introl eq_refl)).
Defined.

(** X5.  With a model name outside the task table and at least one pair to
    process, [run_prediction] raises the exception of the first [predict]
    call and stops there: no process is started for any pair, the
    spinner's closing message is not emitted, and the state is the one it
    found. *)
Theorem run_prediction_stops_at_invalid_name {H : Host}
        (model_name : string) (input_dirs output_dirs : list string) (s : state) :
  ~ In model_name model_name_choices ->
  input_dirs <> [] ->
  output_dirs <> [] ->
  run_prediction model_name input_dirs output_dirs s
  = (Raise (Exception ("Error: The model name '" ++ model_name ++ "' is not valid.")%string), s).
Proof.
  intros Hname Hin Hout.
  destruct input_dirs as [| input_dir input_dirs]; [congruence |].
  destruct output_dirs as [| output_dir output_dirs]; [congruence |].
  unfold run_prediction. simpl. unfold bind.
  rewrite (predict_invalid _ _ _ _ s (task_number_raises _ Hname)). reflexivity.
Qed.

Lemma run_prediction_stops_at_invalid_name_witness :
  ~ In "bogus" model_name_choices /\
  ["a"; "b"] <> [] /\
  ["x"; "y"] <> [] /\
  run_prediction (H := Demo.host 0) "bogus" ["a"; "b"] ["x"; "y"] (Demo.start 0)
  = (Raise (Exception ("Error: The model name '" ++ "bogus" ++ "' is not valid.")%string),
     Demo.start 0).
Proof.
  assert (Hin : ["a"; "b"] <> ([] : list string)) by discriminate.
  assert (Hout : ["x"; "y"] <> ([] : list string)) by discriminate.
  split; [exact not_a_choice_bogus |]. split; [exact Hin |]. split; [exact Hout |].
  exact (run_prediction_stops_at_invalid_name (H := Demo.host 0) "bogus"
           ["a"; "b"] ["x"; "y"] (Demo.start 0) not_a_choice_bogus Hin Hout).
Defined.

Lemma string_append_assoc (a b c : string) :
  ((a ++ b) ++ c)%string = (a ++ (b ++ c))%string.
Proof.
  induction a as [| ch a IH]; simpl; [reflexivity | rewrite IH; reflexivity].
Qed.

(** X6.  The command line is put together without quoting: a directory
    name containing [" -o "] moves the boundary between the input and the
    output directory, so that two different calls of [predict] are one and
    the same command, with the same outcome. *)
Theorem predict_does_not_quote_directories {H : Host}
        (model_name input_dir middle output_dir : string) (s : state) :
  predict.predict model_name (input_dir ++ " -o " ++ middle)%string output_dir s
  = predict.predict model_name input_dir (middle ++ " -o " ++ output_dir)%string s.
Proof.
  assert (Hcmd : forall t,
             nnUNet_predict_command (input_dir ++ " -o " ++ middle)%string output_dir t
             = nnUNet_predict_command input_dir (middle ++ " -o " ++ output_dir)%string t).
  { intros t. unfold nnUNet_predict_command.
    repeat rewrite string_append_assoc. reflexivity. }
  unfold predict.predict, bind, lift.
  destruct (map_model_name_to_task_number model_name) as [t | e]; [| reflexivity].
  rewrite Hcmd. reflexivity.
Qed.

Lemma engine_runs_app {H : Host} (cmds1 cmds2 : list string)
      (env : list (string * string)) (w : world) :
  engine_runs (cmds1 ++ cmds2)%list env w
  = ((fst (engine_runs cmds1 env w)
      ++ fst (engine_runs cmds2 env (snd (engine_runs cmds1 env w))))%list,
     snd (engine_runs cmds2 env (snd (engine_runs cmds1 env w)))).
Proof.
  revert w. induction cmds1 as [| cmd cmds1 IH]; intros w; simpl.
  - destruct (engine_runs cmds2 env w); reflexivity.
  - rewrite IH. reflexivity.
Qed.

Lemma combine_app_same_length {A B : Type} (l1 l2 : list A) (l1' l2' : list B) :
  length l1 = length l1' ->
  combine (l1 ++ l2) (l1' ++ l2') = (combine l1 l1' ++ combine l2 l2')%list.
Proof.
  revert l1'. induction l1 as [| a l1 IH]; intros [| b l1'] Hlen; simpl in *;
    try discriminate; [reflexivity |].
  rewrite IH; [reflexivity | congruence].
Qed.

Lemma prediction_loop_environ {H : Host} (model_name : string) (task_number : Z)
      (pairs : list (string * string)) (s : state) :
  map_model_name_to_task_number model_name = Ok task_number ->
  st_environ (snd (for_each pairs
                     (fun p => bind (predict.predict model_name (fst p) (snd p))
                                    (fun _ => ret tt)) s))
  = match pairs with
    | [] => st_environ s
    | _ :: _ => env_set (st_environ s) "RESULTS_FOLDER" NNUNET_RESULTS_FOLDER
    end.
Proof.
  intros Hvalid. revert s.
  induction pairs as [| p pairs IH]; intros s; [reflexivity |].
  pose proof (predict_valid model_name (fst p) (snd p) task_number s Hvalid) as Hstep.
  cbv zeta in Hstep.
  simpl. unfold bind at 1. unfold bind at 1. rewrite Hstep. unfold ret at 1.
  rewrite IH. cbn [st_environ].
  destruct pairs; [reflexivity | apply env_set_idem].
Qed.

(** The state [run_prediction] leaves, for a valid model name. *)
Lemma run_prediction_state {H : Host} (model_name : string) (task_number : Z)
      (input_dirs output_dirs : list string) (s : state) :
  map_model_name_to_task_number model_name = Ok task_number ->
  let pairs := combine input_dirs output_dirs in
  let cmds := map (fun p => nnUNet_predict_command (fst p) (snd p) task_number) pairs in
  let env := env_set (st_environ s) "RESULTS_FOLDER" NNUNET_RESULTS_FOLDER in
  let final := snd (run_prediction model_name input_dirs output_dirs s) in
  st_world final = snd (engine_runs cmds env (st_world s)) /\
  st_environ final = match pairs with [] => st_environ s | _ :: _ => env end /\
  st_trace final
  = (st_trace s ++ fst (engine_runs cmds env (st_world s))
     ++ [SpinnerSucceed "Prediction complete"])%list.
Proof.
  intros Hvalid pairs cmds env. cbv zeta. unfold run_prediction. fold pairs.
  destruct (prediction_loop model_name task_number pairs s Hvalid) as [Hres [Htr Hw]].
  pose proof (prediction_loop_environ model_name task_number pairs s Hvalid) as He.
  set (loop := for_each pairs _) in *.
  unfold bind, emit, ret.
  destruct (loop s) as [[[] | e] s1]; simpl in Hres, Htr, Hw, He; [| discriminate].
  simpl. rewrite Htr, Hw, He, app_assoc. auto.
Qed.

(** X7.  Splitting a batch in two and calling [run_prediction] on the
    parts one after the other runs the same commands in the same order as
    one call on the whole batch, and leaves the same world and the same
    environment (valid model name, first parts of equal length). *)
Theorem run_prediction_split_batch {H : Host}
        (model_name : string) (task_number : Z)
        (input_dirs1 input_dirs2 output_dirs1 output_dirs2 : list string) (s : state) :
  map_model_name_to_task_number model_name = Ok task_number ->
  length input_dirs1 = length output_dirs1 ->
  let whole := snd (run_prediction model_name (input_dirs1 ++ input_dirs2)
                                   (output_dirs1 ++ output_dirs2) s) in
  let first := snd (run_prediction model_name input_dirs1 output_dirs1 s) in
  let second := snd (run_prediction model_name input_dirs2 output_dirs2 first) in
  st_world whole = st_world second /\
  st_environ whole = st_environ second /\
  commands (st_trace whole) = commands (st_trace second).
Proof.
  intros Hvalid Hlen. cbv zeta.
  pose proof (run_prediction_state model_name task_number
                (input_dirs1 ++ input_dirs2) (output_dirs1 ++ output_dirs2) s Hvalid) as Hw.
  pose proof (run_prediction_state model_name task_number
                input_dirs1 output_dirs1 s Hvalid) as H1.
  set (s1 := snd (run_prediction model_name input_dirs1 output_dirs1 s)) in *.
  pose proof (run_prediction_state model_name task_number
                input_dirs2 output_dirs2 s1 Hvalid) as H2.
  cbv zeta in Hw, H1, H2.
  destruct Hw as (Hww & Hwe & Hwt). destruct H1 as (H1w & H1e & H1t).
  destruct H2 as (H2w & H2e & H2t).
  assert (Henv2 : env_set (st_environ s1) "RESULTS_FOLDER" NNUNET_RESULTS_FOLDER
                  = env_set (st_environ s) "RESULTS_FOLDER" NNUNET_RESULTS_FOLDER).
  { rewrite H1e. destruct (combine input_dirs1 output_dirs1);
      [reflexivity | apply env_set_idem]. }
  rewrite Henv2 in H2w, H2e, H2t.
  rewrite (combine_app_same_length _ _ _ _ Hlen), map_app, engine_runs_app in Hww, Hwt.
  cbn [fst snd] in Hww, Hwt.
  rewrite (combine_app_same_length _ _ _ _ Hlen) in Hwe.
  rewrite Hww, Hwe, Hwt, H2w, H2e, H2t, H1w, H1e, H1t.
  split; [reflexivity |]. split.
  - destruct (combine input_dirs1 output_dirs1), (combine input_dirs2 output_dirs2);
      reflexivity.
  - repeat rewrite commands_app. simpl. repeat rewrite app_nil_r.
    repeat rewrite app_assoc. reflexivity.
Qed.

Lemma run_prediction_split_batch_witness :
  map_model_name_to_task_number "clin_ct_fat" = Ok 206 /\
  length ["a"] = length ["x"] /\
  let s := Demo.start 1 in
  let whole := snd (run_prediction (H := Demo.host 1) "clin_ct_fat"
                                   (["a"] ++ ["b"; "c"]) (["x"] ++ ["y"; "z"]) s) in
  let first := snd (run_prediction "clin_ct_fat" ["a"] ["x"] s) in
  let second := snd (run_prediction "clin_ct_fat" ["b"; "c"] ["y"; "z"] first) in
  st_world whole = st_world second /\
  st_environ whole = st_environ second /\
  commands (st_trace whole) = commands (st_trace second).
Proof.
  split; [reflexivity |]. split; [reflexivity |].
  exact (run_prediction_split_batch (H := Demo.host 1) "clin_ct_fat" 206
           ["a"] ["b"; "c"] ["x"] ["y"; "z"] (Demo.start 1) eq_refl eq_refl).
Defined.

(* ===================================================================== *)
(** ** Further properties: expected_modality and the registry             *)
(* ===================================================================== *)

Lemma key_eqb_eq (a b : pykey) : key_eqb a b = true -> a = b.
Proof.
  destruct a, b; simpl; try discriminate; intros Heq.
  - apply String.eqb_eq in Heq. congruence.
  - apply Z.eqb_eq in Heq. congruence.
Qed.

Lemma dict_get_In (d : dict) (k : pykey) (v : pyvalue) :
  dict_get d k = Some v -> In (k, v) d.
Proof.
  induction d as [| [k' v'] d IH]; simpl; [discriminate |].
  destruct (key_eqb k' k) eqn:Hk.
  - intros Heq. injection Heq as <-. apply key_eqb_eq in Hk. subst. left. reflexivity.
  - intros Hget. right. apply IH. exact Hget.
Qed.

Lemma dict_get_None (d : dict) (k : pykey) :
  dict_get d k = None -> ~ In k (dict_keys d).
Proof.
  induction d as [| [k' v'] d IH]; simpl; [tauto |].
  destruct (key_eqb k' k) eqn:Hk; [discriminate |].
  intros Hget [Heq | Hin]; [| exact (IH Hget Hin)].
  subst k'. destruct k; simpl in Hk.
  - rewrite String.eqb_refl in Hk. discriminate.
  - rewrite Z.eqb_refl in Hk. discriminate.
Qed.

(** X8.  [expected_modality] never raises and has two outcomes.  For a
    name of its table it returns the table's three fields followed by
    ["Model name"] set to the name, and changes nothing; for any other
    string it logs one error line and returns the error dictionary. *)
Theorem expected_modality_outcome {H : Host} (name : string) (s : state) :
  (exists imaging modality tissue,
      In (KStr name,
          PDict [(KStr "Imaging", PStr imaging); (KStr "Modality", PStr modality);
                 (KStr "Tissue of interest", PStr tissue)]) expected_modality_models /\
      expected_modality name s
      = (Ok (PDict [(KStr "Imaging", PStr imaging); (KStr "Modality", PStr modality);
                    (KStr "Tissue of interest", PStr tissue);
                    (KStr "Model name", PStr name)]), s))
  \/
  (~ In (KStr name) (dict_keys expected_modality_models) /\
   expected_modality name s
   = (Ok (PDict [(KStr "Error",
                  PStr "Requested model is not available. Please check the model name.")]),
      mkState (st_world s) (st_environ s) (st_MODELS s)
              (st_trace s ++
               [Log ERROR " Requested model is not available. Please check the model name."]))).
Proof.
  destruct (dict_get expected_modality_models (KStr name)) as [model |] eqn:Hget.
  - left. apply dict_get_In in Hget. pose proof Hget as Hin.
    unfold expected_modality_models in Hget. simpl in Hget.
    repeat (destruct Hget as [Heq | Hget];
            [injection Heq as <- <-; do 3 eexists; split; [exact Hin | reflexivity] |]).
    contradiction.
  - right. split; [apply dict_get_None; exact Hget |].
    unfold expected_modality. cbv zeta. rewrite Hget. reflexivity.
Qed.

(** X9.  Every name of the modality table is a key of [MODELS], but not
    the other way round: among the keys of [MODELS], [expected_modality]
    answers with the error dictionary exactly for [clin_pt_fdg_tumor],
    [clin_ct_fast_vertebrae] and [clin_ct_fast_cardiac]. *)
Theorem expected_modality_on_registry_names :
  (forall k, In k (dict_keys expected_modality_models) -> In k AVAILABLE_MODELS) /\
  (forall (H : Host) (name : string) (s : state),
      In (KStr name) AVAILABLE_MODELS ->
      (fst (expected_modality name s)
       = Ok (PDict [(KStr "Error",
                     PStr "Requested model is not available. Please check the model name.")])
       <-> In name ["clin_pt_fdg_tumor"; "clin_ct_fast_vertebrae"; "clin_ct_fast_cardiac"])).
Proof.
  split.
  - intros k Hk.
    assert (Hall : forallb (fun k => dict_mem MODELS k)
                           (dict_keys expected_modality_models) = true)
      by (vm_compute; reflexivity).
    rewrite forallb_forall in Hall. specialize (Hall k Hk).
    unfold dict_mem in Hall.
    destruct (dict_get MODELS k) as [v |] eqn:Hget; [| discriminate].
    apply dict_get_In in Hget. unfold AVAILABLE_MODELS, dict_keys.
    change k with (fst (k, v)). apply in_map. exact Hget.
  - intros H name s Hin.
    unfold AVAILABLE_MODELS, dict_keys, MODELS in Hin. simpl in Hin.
    repeat (destruct Hin as [Heq | Hin];
            [injection Heq as <-; split;
             [intros Hres; first [discriminate Hres | simpl; tauto]
             | intros Hname; first [reflexivity
                                   | exfalso; simpl in Hname;
                                     repeat (destruct Hname as [Hname | Hname];
                                             [discriminate |]);
                                     exact Hname]] |]).
    contradiction.
Qed.

(** X10.  The names follow the scheme of the registry's header comment:
    every key of [MODELS] and of the modality table starts with [clin_] or
    [preclin_] and a modality tag, and in the modality table the fields
    [Imaging] and [Modality] are the ones that go with that prefix. *)
Theorem model_names_follow_scheme :
  (forall k desc,
      In (k, desc) MODELS ->
      exists name scheme,
        k = KStr name /\ In scheme name_schemes /\ String.prefix (fst scheme) name = true) /\
  (forall k desc,
      In (k, desc) expected_modality_models ->
      exists name scheme,
        k = KStr name /\ In scheme name_schemes /\ String.prefix (fst scheme) name = true /\
        field desc "Imaging" = Some (PStr (fst (snd scheme))) /\
        field desc "Modality" = Some (PStr (snd (snd scheme)))).
Proof.
  split.
  - intros k desc Hin.
    assert (Hall : forallb (fun kv =>
              match fst kv with
              | KStr name => existsb (fun sc => String.prefix (fst sc) name) name_schemes
              | KInt _ => false
              end) MODELS = true) by (vm_compute; reflexivity).
    rewrite forallb_forall in Hall. specialize (Hall _ Hin). cbn [fst] in Hall.
    destruct k as [name | n]; [| discriminate].
    apply existsb_exists in Hall. destruct Hall as [sc [Hsc Hpre]].
    exists name, sc. auto.
  - intros k desc Hin.
    assert (Hall : forallb (fun kv =>
              match fst kv with
              | KStr name =>
                  existsb (fun sc =>
                             String.prefix (fst sc) name &&
                             match field (snd kv) "Imaging", field (snd kv) "Modality" with
                             | Some (PStr i), Some (PStr m) =>
                                 String.eqb i (fst (snd sc)) && String.eqb m (snd (snd sc))
                             | _, _ => false
                             end) name_schemes
              | KInt _ => false
              end) expected_modality_models = true) by (vm_compute; reflexivity).
    rewrite forallb_forall in Hall. specialize (Hall _ Hin). cbn [fst snd] in Hall.
    destruct k as [name | n]; [| discriminate].
    apply existsb_exists in Hall. destruct Hall as [sc [Hsc Hok]].
    apply andb_prop in Hok. destruct Hok as [Hpre Hfields].
    destruct (field desc "Imaging") as [[| | | | i | |] |]; try discriminate.
    destruct (field desc "Modality") as [[| | | | m | |] |]; try discriminate.
    apply andb_prop in Hfields. destruct Hfields as [Hi Hm].
    apply String.eqb_eq in Hi. apply String.eqb_eq in Hm. subst.
    exists name, sc. auto.
Qed.

(** X11.  Every entry of [MODELS] other than [clin_pt_fdg_tumor] has the
    same ten keys in the same order, with values of the expected kinds:
    the zip file is named after the directory it unpacks to, the URL lies
    in the project's bucket, the directory is a [Dataset...] folder, the
    trainer is an [nnUNetTrainer...], the planner is [nnUNetPlans], the
    configuration is [3d_fullres] or [3d_fullres_big_patch], and the voxel
    spacing is three positive numbers. *)
Theorem registry_entry_schema (name : string) (desc : pyvalue) :
  In (KStr name, desc) MODELS ->
  name <> "clin_pt_fdg_tumor" ->
  exists url filename directory trainer sx sy sz prefix configuration organ limit,
    desc = PDict [(KStr "url", PStr url);
                  (KStr "filename", PStr filename);
                  (KStr "directory", PStr directory);
                  (KStr "trainer", PStr trainer);
                  (KStr "voxel_spacing", PList [sx; sy; sz]);
                  (KStr "multilabel_prefix", PStr prefix);
                  (KStr "configuration", PStr configuration);
                  (KStr "planner", PStr "nnUNetPlans");
                  (KStr "organ_indices", PDict organ);
                  (KStr "limit_fov", limit)] /\
    filename = (directory ++ ".zip")%string /\
    String.prefix "https://enhance-pet.s3.eu-central-1.amazonaws.com/moose/" url = true /\
    String.prefix "Dataset" directory = true /\
    String.prefix "nnUNetTrainer" trainer = true /\
    forallb positive_number [sx; sy; sz] = true /\
    (configuration = "3d_fullres" \/ configuration = "3d_fullres_big_patch").
Proof.
  intros Hin Hne. unfold MODELS in Hin. simpl in Hin.
  repeat (destruct Hin as [Heq | Hin];
          [injection Heq as <- <-;
           first [ exfalso; apply Hne; reflexivity
                 | do 11 eexists;
                   split; [reflexivity |]; split; [reflexivity |];
                   split; [reflexivity |]; split; [reflexivity |];
                   split; [reflexivity |]; split; [reflexivity |];
                   first [left; reflexivity | right; reflexivity] ] |]).
  contradiction.
Qed.

Lemma registry_entry_schema_witness :
  exists desc,
    In (KStr "clin_ct_lungs", desc) MODELS /\
    "clin_ct_lungs" <> "clin_pt_fdg_tumor" /\
    exists url filename directory trainer sx sy sz prefix configuration organ limit,
      desc = PDict [(KStr "url", PStr url);
                    (KStr "filename", PStr filename);
                    (KStr "directory", PStr directory);
                    (KStr "trainer", PStr trainer);
                    (KStr "voxel_spacing", PList [sx; sy; sz]);
                    (KStr "multilabel_prefix", PStr prefix);
                    (KStr "configuration", PStr configuration);
                    (KStr "planner", PStr "nnUNetPlans");
                    (KStr "organ_indices", PDict organ);
                    (KStr "limit_fov", limit)] /\
      filename = (directory ++ ".zip")%string /\
      String.prefix "https://enhance-pet.s3.eu-central-1.amazonaws.com/moose/" url = true /\
      String.prefix "Dataset" directory = true /\
      String.prefix "nnUNetTrainer" trainer = true /\
      forallb positive_number [sx; sy; sz] = true /\
      (configuration = "3d_fullres" \/ configuration = "3d_fullres_big_patch").
Proof.
  exists (snd (nth 0 MODELS (KStr "", PNone))).
  assert (Hin : In (KStr "clin_ct_lungs", snd (nth 0 MODELS (KStr "", PNone))) MODELS)
    by (left; reflexivity).
  assert (Hne : "clin_ct_lungs" <> "clin_pt_fdg_tumor") by discriminate.
  split; [exact Hin |]. split; [exact Hne |].
  exact (registry_entry_schema "clin_ct_lungs" _ Hin Hne).
Defined.

Lemma distinct_NoDup (l : list string) : distinct l = true -> NoDup l.
Proof.
  induction l as [| x l IH]; simpl; intros Hd; constructor.
  - apply andb_prop in Hd. destruct Hd as [Hx _]. intros Hin.
    assert (Hex : existsb (String.eqb x) l = true).
    { apply existsb_exists. exists x. split; [exact Hin | apply String.eqb_refl]. }
    rewrite Hex in Hx. discriminate.
  - apply andb_prop in Hd. apply IH. apply Hd.
Qed.

Lemma NoDup_app_disjoint {A : Type} (l l' : list A) (v : A) :
  NoDup (l ++ l') -> In v l -> In v l' -> False.
Proof.
  induction l as [| a l IH]; simpl; [tauto |].
  intros Hnd [-> | Hin] Hin'.
  - inversion Hnd as [| ? ? Hnotin _]. apply Hnotin. apply in_or_app. right. exact Hin'.
  - inversion Hnd. auto.
Qed.

Lemma flat_map_NoDup_unique {A B : Type} (g : A -> list B) (l : list A) (x y : A) (v : B) :
  NoDup (flat_map g l) -> In x l -> In y l -> In v (g x) -> In v (g y) -> x = y.
Proof.
  induction l as [| a l IH]; simpl; [tauto |].
  intros Hnd [-> | Hx] [-> | Hy] Hvx Hvy.
  - reflexivity.
  - exfalso. apply (NoDup_app_disjoint _ _ v Hnd Hvx).
    apply in_flat_map. exists y. auto.
  - exfalso. apply (NoDup_app_disjoint _ _ v Hnd Hvy).
    apply in_flat_map. exists x. auto.
  - apply IH; auto. apply NoDup_app_remove_l in Hnd. exact Hnd.
Qed.

(** X12.  No two entries of [MODELS] share a download URL, a zip file
    name, an extraction directory or a label prefix. *)
Theorem registry_fields_pairwise_distinct
        (f : string) (k1 k2 : pykey) (d1 d2 : pyvalue) (v : string) :
  In f ["url"; "filename"; "directory"; "multilabel_prefix"] ->
  In (k1, d1) MODELS -> In (k2, d2) MODELS ->
  field d1 f = Some (PStr v) -> field d2 f = Some (PStr v) ->
  k1 = k2 /\ d1 = d2.
Proof.
  intros Hf H1 H2 Hv1 Hv2.
  assert (Hnd : NoDup (string_fields f MODELS)).
  { simpl in Hf.
    destruct Hf as [<- | [<- | [<- | [<- | []]]]];
      apply distinct_NoDup; vm_compute; reflexivity. }
  assert (Heq : (k1, d1) = (k2, d2)).
  { unfold string_fields in Hnd.
    apply (flat_map_NoDup_unique _ _ _ _ v Hnd H1 H2); cbn [snd].
    - rewrite Hv1. left. reflexivity.
    - rewrite Hv2. left. reflexivity. }
  injection Heq as -> ->. auto.
Qed.

Lemma registry_fields_pairwise_distinct_witness :
  In "directory" ["url"; "filename"; "directory"; "multilabel_prefix"] /\
  exists d,
    In (KStr "clin_ct_organs", d) MODELS /\
    field d "directory" = Some (PStr "Dataset123_Organs") /\
    (KStr "clin_ct_organs" = KStr "clin_ct_organs" /\ d = d).
Proof.
  assert (Hf : In "directory" ["url"; "filename"; "directory"; "multilabel_prefix"])
    by (right; right; left; reflexivity).
  split; [exact Hf |].
  exists (snd (nth 1 MODELS (KStr "", PNone))).
  assert (Hin : In (KStr "clin_ct_organs", snd (nth 1 MODELS (KStr "", PNone))) MODELS)
    by (right; left; reflexivity).
  assert (Hv : field (snd (nth 1 MODELS (KStr "", PNone))) "directory"
               = Some (PStr "Dataset123_Organs")) by reflexivity.
  split; [exact Hin |]. split; [exact Hv |].
  exact (registry_fields_pairwise_distinct "directory" _ _ _ _ "Dataset123_Organs"
           Hf Hin Hin Hv Hv).
Defined.

(** X13.  In every entry of [MODELS] the label map [organ_indices] is not
    empty and its keys are consecutive integers in increasing order,
    starting at 1, or at 0 when label 0 is ["background"]. *)
Theorem organ_indices_are_dense (k : pykey) (desc : pyvalue) :
  In (k, desc) MODELS ->
  exists organ start,
    field desc "organ_indices" = Some (PDict organ) /\
    organ <> [] /\
    dict_keys organ = map (fun i => KInt (start + Z.of_nat i)) (seq 0 (length organ)) /\
    (start = 1 \/ start = 0 /\ dict_get organ (KInt 0) = Some (PStr "background")).
Proof.
  intros Hin. unfold MODELS in Hin. simpl in Hin.
  repeat (destruct Hin as [Heq | Hin];
          [injection Heq as <- <-; eexists;
           first [ exists 1; split; [reflexivity |]; split; [discriminate |];
                   split; [vm_compute; reflexivity | left; reflexivity]
                 | exists 0; split; [reflexivity |]; split; [discriminate |];
                   split; [vm_compute; reflexivity | right; split; reflexivity] ] |]).
  contradiction.
Qed.

Lemma organ_indices_are_dense_witness :
  exists desc,
    In (KStr "clin_ct_PUMA", desc) MODELS /\
    exists organ start,
      field desc "organ_indices" = Some (PDict organ) /\
      organ <> [] /\
      dict_keys organ = map (fun i => KInt (start + Z.of_nat i)) (seq 0 (length organ)) /\
      (start = 1 \/ start = 0 /\ dict_get organ (KInt 0) = Some (PStr "background")).
Proof.
  exists (snd (nth 13 MODELS (KStr "", PNone))).
  assert (Hin : In (KStr "clin_ct_PUMA", snd (nth 13 MODELS (KStr "", PNone))) MODELS)
    by (unfold MODELS; simpl; do 13 right; left; reflexivity).
  split; [exact Hin |].
  exact (organ_indices_are_dense _ _ Hin).
Defined.

(** X14.  Every [limit_fov] that is not [None] has the four keys
    [model_to_crop_from], [inference_fov_intensities],
    [label_intensity_to_crop_from], [largest_component_only], and the
    labels it names (one or a list for the field of view, one to crop
    from) are all labels of the model to crop from. *)
Theorem crop_labels_exist (k : pykey) (desc limit_fov : pyvalue) :
  In (k, desc) MODELS ->
  field desc "limit_fov" = Some limit_fov ->
  limit_fov <> PNone ->
  exists target inference label largest source organ wanted,
    limit_fov = PDict [(KStr "model_to_crop_from", PStr target);
                       (KStr "inference_fov_intensities", inference);
                       (KStr "label_intensity_to_crop_from", PInt label);
                       (KStr "largest_component_only", PBool largest)] /\
    dict_get MODELS (KStr target) = Some source /\
    field source "organ_indices" = Some (PDict organ) /\
    int_items inference = Some wanted /\
    wanted <> [] /\
    forall n, In n (label :: wanted) ->
              exists organ_name, dict_get organ (KInt n) = Some (PStr organ_name).
Proof.
  intros Hin Hfov Hnone. unfold MODELS in Hin. simpl in Hin.
  repeat (destruct Hin as [Heq | Hin];
          [injection Heq as <- <-; vm_compute in Hfov; injection Hfov as <-;
           first [ exfalso; apply Hnone; reflexivity
                 | do 7 eexists;
                   split; [reflexivity |]; split; [vm_compute; reflexivity |];
                   split; [reflexivity |]; split; [reflexivity |];
                   split; [discriminate |];
                   intros n Hn; simpl in Hn;
                   repeat (destruct Hn as [<- | Hn]; [eexists; reflexivity |]);
                   contradiction ] |]).
  contradiction.
Qed.

Lemma crop_labels_exist_witness :
  exists desc,
    In (KStr "clin_ct_liver_segments", desc) MODELS /\
    field desc "limit_fov" = Some Demo.liver_segments_limit_fov /\
    Demo.liver_segments_limit_fov <> PNone /\
    exists target inference label largest source organ wanted,
      Demo.liver_segments_limit_fov
      = PDict [(KStr "model_to_crop_from", PStr target);
               (KStr "inference_fov_intensities", inference);
               (KStr "label_intensity_to_crop_from", PInt label);
               (KStr "largest_component_only", PBool largest)] /\
      dict_get MODELS (KStr target) = Some source /\
      field source "organ_indices" = Some (PDict organ) /\
      int_items inference = Some wanted /\
      wanted <> [] /\
      forall n, In n (label :: wanted) ->
                exists organ_name, dict_get organ (KInt n) = Some (PStr organ_name).
Proof.
  exists (snd (nth 17 MODELS (KStr "", PNone))).
  assert (Hin : In (KStr "clin_ct_liver_segments", snd (nth 17 MODELS (KStr "", PNone))) MODELS)
    by (unfold MODELS; simpl; do 17 right; left; reflexivity).
  assert (Hfov : field (snd (nth 17 MODELS (KStr "", PNone))) "limit_fov"
                 = Some Demo.liver_segments_limit_fov) by reflexivity.
  assert (Hne : Demo.liver_segments_limit_fov <> PNone) by discriminate.
  split; [exact Hin |]. split; [exact Hfov |]. split; [exact Hne |].
  exact (crop_labels_exist _ _ _ Hin Hfov Hne).
Defined.

(* ===================================================================== *)
(** ** Further properties: main and check_device                          *)
(* ===================================================================== *)

Section outcome_rules.
Context {H : Host}.

Lemma outcome_ret {A} (a : A) (Q : result A -> list event -> Prop) :
  Q (Ok a) [] -> outcome (ret a) Q.
Proof. intros HQ s. exists []. simpl. rewrite app_nil_r. auto. Qed.

Lemma outcome_emit_bind {B} (e : event) (k : unit -> M B)
      (Q : result B -> list event -> Prop) :
  outcome (k tt) (fun r tr => Q r (e :: tr)) -> outcome (bind (emit e) k) Q.
Proof.
  intros Hk s. unfold bind, emit.
  destruct (Hk (mkState (st_world s) (st_environ s) (st_MODELS s) (st_trace s ++ [e])))
    as (tr & Ht & He & Hm & HQ).
  exists (e :: tr). simpl in Ht, He, Hm. rewrite Ht, He, Hm, <- app_assoc. auto.
Qed.

Lemma outcome_call_bind {A B} (f : world -> result A * world) (k : A -> M B)
      (Q : result B -> list event -> Prop) :
  (forall w a, fst (f w) = Ok a -> outcome (k a) Q) ->
  (forall w e, fst (f w) = Raise e -> Q (Raise e) []) ->
  outcome (bind (call f) k) Q.
Proof.
  intros Hok Hraise s. unfold bind, call.
  specialize (Hok (st_world s)). specialize (Hraise (st_world s)).
  destruct (f (st_world s)) as [[a | e] w]; simpl in Hok, Hraise.
  - destruct (Hok a eq_refl (mkState w (st_environ s) (st_MODELS s) (st_trace s)))
      as (tr & Ht & He & Hm & HQ).
    exists tr. auto.
  - exists []. simpl. rewrite app_nil_r. auto.
Qed.

Lemma outcome_query_bind {A B} (f : world -> result A) (k : A -> M B)
      (Q : result B -> list event -> Prop) :
  (forall a, outcome (k a) Q) ->
  (forall e, Q (Raise e) []) ->
  outcome (bind (query f) k) Q.
Proof.
  intros Hok Hraise s. unfold bind, query.
  destruct (f (st_world s)) as [a | e].
  - apply Hok.
  - exists []. simpl. rewrite app_nil_r. auto.
Qed.

Lemma outcome_get_world_bind {B} (k : world -> M B)
      (Q : result B -> list event -> Prop) :
  (forall w, outcome (k w) Q) -> outcome (bind get_world k) Q.
Proof. intros Hk s. unfold bind, get_world. apply Hk. Qed.

Lemma not_a_choice (name : string) :
  existsb (String.eqb name) model_name_choices = false <-> ~ In name model_name_choices.
Proof.
  split.
  - intros Hc Hin.
    assert (Hex : existsb (String.eqb name) model_name_choices = true).
    { apply existsb_exists. exists name. split; [exact Hin | apply String.eqb_refl]. }
    congruence.
  - intros Hnot. destruct (existsb (String.eqb name) model_name_choices) eqn:Hc;
      [| reflexivity].
    exfalso. apply Hnot. apply existsb_exists in Hc. destruct Hc as [x [Hx Heq]].
    apply String.eqb_eq in Heq. subst. exact Hx.
Qed.

Lemma outcome_parse_args_bind {B} (main_directory name : string)
      (k : string * string -> M B) (Q : result B -> list event -> Prop) :
  (In name model_name_choices -> outcome (k (main_directory, name)) Q) ->
  (~ In name model_name_choices ->
   Q (Raise (SystemExit 2)) [UsageError "-m/--model_name" name]) ->
  outcome (bind (parse_args main_directory name) k) Q.
Proof.
  intros Hok Hraise s. unfold bind, parse_args.
  destruct (existsb (String.eqb name) model_name_choices) eqn:Hc.
  - apply Hok. apply existsb_exists in Hc. destruct Hc as [x [Hx Heq]].
    apply String.eqb_eq in Heq. subst. exact Hx.
  - exists [UsageError "-m/--model_name" name]. simpl. repeat split; auto.
    apply Hraise. apply not_a_choice. exact Hc.
Qed.

Lemma outcome_for_each_call_bind {A B} (l : list A)
      (f : A -> world -> result unit * world) (k : unit -> M B)
      (Q : result B -> list event -> Prop) :
  outcome (k tt) Q ->
  (forall e, Q (Raise e) []) ->
  outcome (bind (for_each l (fun x => call (f x))) k) Q.
Proof.
  intros Hok Hraise. induction l as [| x l IH]; intros s.
  - apply Hok.
  - assert (Estep : bind (for_each (x :: l) (fun y => call (f y))) k s
                    = match f x (st_world s) with
                      | (Ok _, w) =>
                          bind (for_each l (fun y => call (f y))) k
                               (mkState w (st_environ s) (st_MODELS s) (st_trace s))
                      | (Raise e, w) =>
                          (Raise e, mkState w (st_environ s) (st_MODELS s) (st_trace s))
                      end).
    { simpl. unfold bind, call. destruct (f x (st_world s)) as [[[] | e] w]; reflexivity. }
    rewrite Estep.
    destruct (f x (st_world s)) as [[[] | e] w].
    + destruct (IH (mkState w (st_environ s) (st_MODELS s) (st_trace s)))
        as (tr & Ht & He & Hm & HQ).
      exists tr. auto.
    + exists []. simpl. rewrite app_nil_r. auto.
Qed.

End outcome_rules.

(** One step down [main] for a postcondition that asks nothing of a run
    that raises. *)
Ltac outcome_ok :=
  cbv beta zeta;
  first
    [ apply outcome_emit_bind
    | apply outcome_call_bind; [intros ? ? _ | intros ? ? _; exact I]
    | apply outcome_query_bind; [intros ? | intros ?; exact I]
    | apply outcome_get_world_bind; intros ?
    | apply outcome_for_each_call_bind; [| intros ?; exact I]
    | apply outcome_parse_args_bind; [intros ? | intros _; exact I] ].

Lemma main_prepare_outcome {H : Host} (main_directory name : string) :
  outcome (main_prepare main_directory name)
          (fun r tr =>
             match r with
             | Ok l => tr = prepare_transcript (abspath main_directory) name (moose_dir l) /\
                       In name model_name_choices
             | Raise _ => True
             end).
Proof.
  unfold main_prepare, print, logging_info.
  repeat outcome_ok.
  apply outcome_ret. split; [reflexivity | assumption].
Qed.

(** X15.  A model name outside the choices of [--model_name] ends [main]
    with exit status 2 right after argparse's usage error on standard
    error, before anything else happens: nothing is printed to standard
    output or logged, no helper is called, and the world, [os.environ]
    and the registry are unchanged. *)
Theorem main_rejects_unknown_model {H : Host}
        (main_directory name : string) (s : state) :
  ~ In name model_name_choices ->
  main main_directory name s
  = (Raise (SystemExit 2),
     mkState (st_world s) (st_environ s) (st_MODELS s)
             (st_trace s ++ [UsageError "-m/--model_name" name])).
Proof.
  intros Hname. apply not_a_choice in Hname.
  unfold main, main_prepare, parse_args, bind. rewrite Hname. reflexivity.
Qed.

Lemma main_rejects_unknown_model_witness :
  ~ In "bogus" model_name_choices /\
  main (H := Demo.host 0) "/data" "bogus" (Demo.start 0)
  = (Raise (SystemExit 2),
     mkState (st_world (Demo.start 0)) (st_environ (Demo.start 0)) (st_MODELS (Demo.start 0))
             (st_trace (Demo.start 0) ++ [UsageError "-m/--model_name" "bogus"])).
Proof.
  split; [exact not_a_choice_bogus |].
  exact (main_rejects_unknown_model (H := Demo.host 0) "/data" "bogus" (Demo.start 0)
           not_a_choice_bogus).
Defined.

(** X16.  When [main] ends normally, the model name was one of the
    choices, and what [main] has printed and logged is one fixed
    transcript, in this order: banner, directory and model, the note, the
    download, the modality lookup with standard output redirected and then
    restored, the MOOSE directory, the standardisation with its spinner,
    and the prediction banner.  [os.environ] and the registry are
    untouched. *)
Theorem main_transcript_on_success {H : Host}
        (main_directory name : string) (s : state) :
  fst (main main_directory name s) = Ok tt ->
  In name model_name_choices /\
  st_environ (snd (main main_directory name s)) = st_environ s /\
  st_MODELS (snd (main main_directory name s)) = st_MODELS s /\
  exists moose_dir,
    st_trace (snd (main main_directory name s))
    = (st_trace s ++ main_transcript (abspath main_directory) name moose_dir)%list.
Proof.
  rewrite main_unfold.
  destruct (main_prepare_outcome main_directory name s) as (tr & Ht & He & Hm & HQ).
  destruct (main_prepare main_directory name s) as [[l | e] s1];
    cbn [fst snd] in Ht, He, Hm, HQ |- *; [| discriminate].
  intros _. destruct HQ as [-> Hin].
  rewrite main_run_prediction_effect. cbn [snd st_environ st_MODELS st_trace].
  repeat split; auto.
  exists (moose_dir l). rewrite Ht. unfold main_transcript.
  rewrite <- app_assoc. reflexivity.
Qed.

Lemma main_transcript_on_success_witness :
  fst (main (H := Demo.host 0) "/data" "clin_ct_ribs" (Demo.start 0)) = Ok tt /\
  In "clin_ct_ribs" model_name_choices /\
  st_environ (snd (main (H := Demo.host 0) "/data" "clin_ct_ribs" (Demo.start 0)))
  = st_environ (Demo.start 0) /\
  st_MODELS (snd (main (H := Demo.host 0) "/data" "clin_ct_ribs" (Demo.start 0)))
  = st_MODELS (Demo.start 0) /\
  exists moose_dir,
    st_trace (snd (main (H := Demo.host 0) "/data" "clin_ct_ribs" (Demo.start 0)))
    = (st_trace (Demo.start 0)
       ++ main_transcript (abspath (Host := Demo.host 0) "/data") "clin_ct_ribs" moose_dir)%list.
Proof.
  assert (Hok : fst (main (H := Demo.host 0) "/data" "clin_ct_ribs" (Demo.start 0)) = Ok tt)
    by (vm_compute; reflexivity).
  split; [exact Hok |].
  exact (main_transcript_on_success (H := Demo.host 0) "/data" "clin_ct_ribs"
           (Demo.start 0) Hok).
Defined.







(** X19.  [check_device] never raises, prints exactly one line and changes
    nothing else; it prefers CUDA to MPS and falls back to the CPU: the
    result is ["cuda"] exactly when CUDA is available, ["mps"] exactly when
    CUDA is not and MPS is, and ["cpu"] exactly when neither is, whether or
    not PyTorch was built with MPS. *)
Theorem check_device_outcome {H : Host} {T : Torch} (s : state) :
  let cuda := cuda_is_available (st_world s) in
  let mps := mps_is_available (st_world s) in
  (fst (check_device s) = Ok "cuda" <-> cuda = true) /\
  (fst (check_device s) = Ok "mps" <-> cuda = false /\ mps = true) /\
  (fst (check_device s) = Ok "cpu" <-> cuda = false /\ mps = false) /\
  exists line,
    snd (check_device s)
    = mkState (st_world s) (st_environ s) (st_MODELS s) (st_trace s ++ [Print line]).
Proof.
  cbv zeta. unfold check_device, bind, get_world, print, emit, ret.
  cbn [fst snd st_world].
  destruct (cuda_is_available (st_world s)), (mps_is_available (st_world s)),
    (mps_is_built (st_world s)); cbn [negb fst snd];
    (split; [split; [intros Hr; first [reflexivity | discriminate Hr]
                    | intros Hc; first [reflexivity | discriminate Hc]] |]);
    (split; [split; [intros Hr; first [split; reflexivity | discriminate Hr]
                    | intros [Hc1 Hc2]; first [reflexivity | discriminate]] |]);
    (split; [split; [intros Hr; first [split; reflexivity | discriminate Hr]
                    | intros [Hc1 Hc2]; first [reflexivity | discriminate]] |]);
    eexists; reflexivity.
Qed.
